(** * stripe-cli [listen]: route resolution and forwarding-target construction

    A shallow embedding of the [listen] command (package [cmd]): [parseURL],
    [buildForwardURL], [buildEndpointRoutes] and [runListenCmd], which
    validates the flags and assembles the relay configuration, together with
    the pieces of Go's standard library they call ([strings],
    [strconv.Atoi], [net/url.Parse]).

    Go strings are byte sequences; they are modelled by [string], whose
    characters are the 8-bit [ascii]. *)

From Stdlib Require Import ZArith NArith Ascii String List Bool Lia.
From stdpp Require Import base gmap strings.

Local Open Scope string_scope.
Local Open Scope bool_scope.

(** String concatenation computes on the constructors of its first
    argument. *)
#[local] Arguments String.append !_ _ / : simpl nomatch.

(** ** Results of fallible Go calls: a value, or the [error] that came back *)

Inductive result (E A : Type) : Type :=
| Ok (a : A)
| Err (e : E).
Arguments Ok {E A} a.
Arguments Err {E A} e.

Notation "'let?' x ':=' c 'in' k" :=
  (match c with Ok x => k | Err e__ => Err e__ end)
  (at level 10, x name, c at level 100, k at level 200, only parsing).

Definition is_ok {E A} (r : result E A) : bool :=
  match r with Ok _ => true | Err _ => false end.

(** ** Bytes *)

Definition byte_le (a b : ascii) : bool := (N_of_ascii a <=? N_of_ascii b)%N.

(** [lo <= c && c <= hi] on bytes. *)
Definition in_range (lo hi c : ascii) : bool := byte_le lo c && byte_le c hi.

Definition is_digit (c : ascii) : bool := in_range "0" "9" c.
Definition is_alpha (c : ascii) : bool := in_range "a" "z" c || in_range "A" "Z" c.

(** The double quote and the line feed. *)
Definition dquote : ascii := ascii_of_nat 34.
Definition newline : ascii := ascii_of_nat 10.

(** Membership of a byte in a [switch c { case 'x', 'y', ...: }] label list. *)
Fixpoint byte_in (c : ascii) (cs : string) : bool :=
  match cs with
  | EmptyString => false
  | String d cs' => Ascii.eqb c d || byte_in c cs'
  end.

(** ** Package [strings] (the functions the program and [net/url] call) *)

Module GoStrings.

Fixpoint HasPrefix (s prefix : string) {struct prefix} : bool :=
  match prefix, s with
  | EmptyString, _ => true
  | String p prefix', String c s' => Ascii.eqb c p && HasPrefix s' prefix'
  | String _ _, EmptyString => false
  end.

(** [s[n:]] and [s[:n]] *)
Fixpoint from (n : nat) (s : string) : string :=
  match n, s with
  | O, _ => s
  | S n', String _ s' => from n' s'
  | S _, EmptyString => EmptyString
  end.

Fixpoint upto (n : nat) (s : string) : string :=
  match n, s with
  | O, _ => EmptyString
  | S n', String c s' => String c (upto n' s')
  | S _, EmptyString => EmptyString
  end.

Definition HasSuffix (s suffix : string) : bool :=
  (String.length suffix <=? String.length s)%nat
  && String.eqb (from (String.length s - String.length suffix) s) suffix.

Definition TrimSuffix (s suffix : string) : string :=
  if HasSuffix s suffix
  then upto (String.length s - String.length suffix) s
  else s.

(** Index of the first instance of [substr] in [s], [None] for Go's -1. *)
Fixpoint Index (s substr : string) : option nat :=
  if HasPrefix s substr then Some O
  else match s with
       | EmptyString => None
       | String _ s' => option_map S (Index s' substr)
       end.

Definition Contains (s substr : string) : bool :=
  match Index s substr with Some _ => true | None => false end.

(** Index of the last instance of the byte [c] in [s]. *)
Fixpoint LastIndexByte (s : string) (c : ascii) : option nat :=
  match s with
  | EmptyString => None
  | String d s' =>
      match LastIndexByte s' c with
      | Some i => Some (S i)
      | None => if Ascii.eqb d c then Some O else None
      end
  end.

(** Number of instances of the byte [c] in [s]. *)
Fixpoint CountByte (s : string) (c : ascii) : nat :=
  match s with
  | EmptyString => O
  | String d s' => (if Ascii.eqb d c then 1 else 0) + CountByte s' c
  end.

(** [Cut] slices [s] around the first instance of [sep]. *)
Definition Cut (s sep : string) : string * string * bool :=
  match Index s sep with
  | Some i => (upto i s, from (i + String.length sep) s, true)
  | None => (s, EmptyString, false)
  end.

(** Lower-casing of the ASCII letters; the other bytes are kept. *)
Definition lower_byte (c : ascii) : ascii :=
  if in_range "A" "Z" c then ascii_of_N (N_of_ascii c + 32) else c.

Fixpoint ToLower (s : string) : string :=
  match s with
  | EmptyString => EmptyString
  | String c s' => String (lower_byte c) (ToLower s')
  end.

End GoStrings.

(** ** Package [strconv]: [Atoi] on a 64-bit platform *)

Module Strconv.

Inductive NumError := ErrSyntax | ErrRange.

Definition intSize : Z := 64.

(** The loop of [ParseUint] for base 10 (no underscores: they are only
    accepted for base 0).  [n] is the [uint64] accumulated so far. *)
Fixpoint ParseUint_loop (s : string) (n : Z) : result NumError Z :=
  match s with
  | EmptyString => Ok n
  | String c s' =>
      if is_digit c then
        let d := (Z.of_N (N_of_ascii c) - 48)%Z in
        let cutoff := ((2 ^ 64 - 1) / 10 + 1)%Z in
        let maxVal := (2 ^ 64 - 1)%Z in
        if (cutoff <=? n)%Z then Err ErrRange
        else
          let n' := (n * 10)%Z in
          let n1 := ((n' + d) mod 2 ^ 64)%Z in
          if (n1 <? n')%Z || (maxVal <? n1)%Z then Err ErrRange
          else ParseUint_loop s' n1
      else Err ErrSyntax
  end.

Definition ParseUint10 (s : string) : result NumError Z :=
  match s with
  | EmptyString => Err ErrSyntax
  | _ => ParseUint_loop s 0%Z
  end.

(** [ParseInt(s, 10, 0)] *)
Definition ParseInt10 (s : string) : result NumError Z :=
  match s with
  | EmptyString => Err ErrSyntax
  | String c s' =>
      let neg := Ascii.eqb c "-" in
      let body := if Ascii.eqb c "+" then s' else if neg then s' else s in
      let? un := ParseUint10 body in
      let cutoff := (2 ^ (intSize - 1))%Z in
      if negb neg && (cutoff <=? un)%Z then Err ErrRange
      else if neg && (cutoff <? un)%Z then Err ErrRange
      else Ok (if neg then (- un)%Z else un)
  end.

(** The fast path's loop: [ch -= '0'; if ch > 9 { syntax error }]. *)
Fixpoint Atoi_loop (s : string) (n : Z) : result NumError Z :=
  match s with
  | EmptyString => Ok n
  | String c s' =>
      let ch := ((Z.of_N (N_of_ascii c) - 48) mod 256)%Z in
      if (9 <? ch)%Z then Err ErrSyntax
      else Atoi_loop s' (n * 10 + ch)%Z
  end.

Definition Atoi (s : string) : result NumError Z :=
  let sLen := String.length s in
  if (0 <? sLen)%nat && (sLen <? 19)%nat then
    match s with
    | EmptyString => Err ErrSyntax
    | String c s' =>
        let signed := Ascii.eqb c "-" || Ascii.eqb c "+" in
        let body := if signed then s' else s in
        if signed && (String.length body <? 1)%nat then Err ErrSyntax
        else
          let? n := Atoi_loop body 0%Z in
          Ok (if Ascii.eqb c "-" then (- n)%Z else n)
    end
  else ParseInt10 s.

End Strconv.

(** ** [parseURL]: the potentially incomplete URL of the configuration,
    completed to a full one *)

Definition parseURL (url : string) : string :=
  let url :=
    if is_ok (Strconv.Atoi url) then "localhost:" +:+ url else url in
  let url :=
    if GoStrings.HasPrefix url "/" then "localhost" +:+ url else url in
  if negb (GoStrings.HasPrefix url "http://") && negb (GoStrings.HasPrefix url "https://")
  then "http://" +:+ url
  else url.

(** ** Package [net/url]: [Parse]

    Transcribed from Go's [net/url/url.go].  The record keeps the fields that
    [Parse] decides; [RawPath], [RawFragment] and [OmitHost] are encoding
    hints that neither [Parse]'s success nor the program depends on and are
    left out. *)

Module NetURL.

Inductive Error :=
| ErrInvalidControlCharacter      (* "net/url: invalid control character in URL" *)
| ErrEmptyURL                     (* "empty url" *)
| ErrMissingProtocolScheme        (* "missing protocol scheme" *)
| ErrInvalidURIForRequest         (* "invalid URI for request" *)
| ErrFirstPathSegmentColon        (* "first path segment in URL cannot contain colon" *)
| ErrMissingBracket               (* "missing ']' in host" *)
| ErrInvalidPort (colonPort : string)
| ErrInvalidUserinfo              (* "net/url: invalid userinfo" *)
| EscapeError (s : string)
| InvalidHostError (s : string).

Inductive encoding :=
| encodePath
| encodePathSegment
| encodeHost
| encodeZone
| encodeUserPassword
| encodeQueryComponent
| encodeFragment.

Definition encoding_eqb (a b : encoding) : bool :=
  match a, b with
  | encodePath, encodePath
  | encodePathSegment, encodePathSegment
  | encodeHost, encodeHost
  | encodeZone, encodeZone
  | encodeUserPassword, encodeUserPassword
  | encodeQueryComponent, encodeQueryComponent
  | encodeFragment, encodeFragment => true
  | _, _ => false
  end.

Record Userinfo := {
  username : string;
  password : string;
  passwordSet : bool
}.

Record URL := {
  Scheme : string;
  Opaque : string;
  User : option Userinfo;
  Host : string;
  Path : string;
  ForceQuery : bool;
  RawQuery : string;
  Fragment : string
}.

Definition ishex (c : ascii) : bool :=
  is_digit c || in_range "a" "f" c || in_range "A" "F" c.

Definition unhex (c : ascii) : N :=
  if is_digit c then (N_of_ascii c - 48)%N
  else if in_range "a" "f" c then (N_of_ascii c - 97 + 10)%N
  else if in_range "A" "F" c then (N_of_ascii c - 65 + 10)%N
  else 0%N.

(** The byte [unhex(a)<<4 | unhex(b)]. *)
Definition unhex2 (a b : ascii) : ascii :=
  ascii_of_N (N.lor (N.shiftl (unhex a) 4) (unhex b)).

Definition shouldEscape (c : ascii) (mode : encoding) : bool :=
  if is_alpha c || is_digit c then false
  else if (encoding_eqb mode encodeHost || encoding_eqb mode encodeZone)
          && (byte_in c "!$&'()*+,;=:[]<>" || Ascii.eqb c dquote) then false
  else if byte_in c "-_.~" then false
  else if byte_in c "$&+,/:;=?@"
          && match mode with
             | encodePath | encodePathSegment | encodeUserPassword
             | encodeQueryComponent | encodeFragment => true
             | _ => false
             end
  then match mode with
       | encodePath => Ascii.eqb c "?"
       | encodePathSegment => byte_in c "/;,?"
       | encodeUserPassword => byte_in c "@/?:"
       | encodeQueryComponent => true
       | _ => false
       end
  else if encoding_eqb mode encodeFragment && byte_in c "!()*" then false
  else true.

(** First loop of [unescape]: the percent signs are well formed and, for a
    host or a zone, no byte is one that would have to be escaped. *)
Fixpoint unescape_check (s : string) (mode : encoding) : result Error unit :=
  match s with
  | EmptyString => Ok tt
  | String "%" (String a (String b s')) =>
      if negb (ishex a) || negb (ishex b) then
        Err (EscapeError (GoStrings.upto 3 s))
      else if encoding_eqb mode encodeHost && (unhex a <? 8)%N
              && negb (String.eqb (GoStrings.upto 3 s) "%25") then
        Err (EscapeError (GoStrings.upto 3 s))
      else if encoding_eqb mode encodeZone
              && negb (String.eqb (GoStrings.upto 3 s) "%25")
              && negb (Ascii.eqb (unhex2 a b) " ")
              && shouldEscape (unhex2 a b) encodeHost then
        Err (EscapeError (GoStrings.upto 3 s))
      else unescape_check s' mode
  | String "%" _ => Err (EscapeError (GoStrings.upto 3 s))
  | String "+" s' => unescape_check s' mode
  | String c s' =>
      if (encoding_eqb mode encodeHost || encoding_eqb mode encodeZone)
         && (N_of_ascii c <? 128)%N && shouldEscape c encodeHost then
        Err (InvalidHostError (String c EmptyString))
      else unescape_check s' mode
  end.

(** Second loop of [unescape], run on a string that passed the first. *)
Fixpoint unescape_decode (s : string) (mode : encoding) : string :=
  match s with
  | EmptyString => EmptyString
  | String "%" (String a (String b s')) =>
      String (unhex2 a b) (unescape_decode s' mode)
  | String "+" s' =>
      String (if encoding_eqb mode encodeQueryComponent then " " else "+")%char
             (unescape_decode s' mode)
  | String c s' => String c (unescape_decode s' mode)
  end.

(** When there is nothing to decode Go returns [s] itself, which is also
    what the second loop rebuilds. *)
Definition unescape (s : string) (mode : encoding) : result Error string :=
  let? ok := unescape_check s mode in
  Ok (unescape_decode s mode).

Fixpoint stringContainsCTLByte (s : string) : bool :=
  match s with
  | EmptyString => false
  | String b s' =>
      (N_of_ascii b <? 32)%N || (N_of_ascii b =? 127)%N || stringContainsCTLByte s'
  end.

(** The loop of [getScheme]; [s] is [rawURL[i:]]. *)
Fixpoint getScheme_loop (rawURL : string) (i : nat) (s : string)
  : result Error (string * string) :=
  match s with
  | EmptyString => Ok (EmptyString, rawURL)
  | String c s' =>
      if is_alpha c then getScheme_loop rawURL (S i) s'
      else if is_digit c || byte_in c "+-." then
        if (i =? 0)%nat then Ok (EmptyString, rawURL)
        else getScheme_loop rawURL (S i) s'
      else if Ascii.eqb c ":" then
        if (i =? 0)%nat then Err ErrMissingProtocolScheme
        else Ok (GoStrings.upto i rawURL, GoStrings.from (i + 1) rawURL)
      else Ok (EmptyString, rawURL)
  end.

Definition getScheme (rawURL : string) : result Error (string * string) :=
  getScheme_loop rawURL 0 rawURL.

Fixpoint all_digits (s : string) : bool :=
  match s with
  | EmptyString => true
  | String b s' => is_digit b && all_digits s'
  end.

Definition validOptionalPort (port : string) : bool :=
  match port with
  | EmptyString => true
  | String c rest => Ascii.eqb c ":" && all_digits rest
  end.

(** [range s] yields runes; every byte of a rune outside ASCII falls to
    the [default] case, so the test is bytewise. *)
Fixpoint validUserinfo (s : string) : bool :=
  match s with
  | EmptyString => true
  | String r s' =>
      (is_alpha r || is_digit r || byte_in r "-._:~!$&'()*+,;=%@")
      && validUserinfo s'
  end.

Definition parseHost (host : string) : result Error string :=
  let plain :=
    let? h := unescape host encodeHost in Ok h in
  if GoStrings.HasPrefix host "[" then
    match GoStrings.LastIndexByte host "]" with
    | None => Err ErrMissingBracket
    | Some i =>
        let colonPort := GoStrings.from (i + 1) host in
        if negb (validOptionalPort colonPort) then Err (ErrInvalidPort colonPort)
        else
          match GoStrings.Index (GoStrings.upto i host) "%25" with
          | Some zone =>
              let? host1 := unescape (GoStrings.upto zone host) encodeHost in
              let? host2 :=
                unescape (GoStrings.from zone (GoStrings.upto i host)) encodeZone in
              let? host3 := unescape (GoStrings.from i host) encodeHost in
              Ok (host1 +:+ host2 +:+ host3)
          | None => plain
          end
    end
  else
    match GoStrings.LastIndexByte host ":" with
    | Some i =>
        let colonPort := GoStrings.from i host in
        if negb (validOptionalPort colonPort) then Err (ErrInvalidPort colonPort)
        else plain
    | None => plain
    end.

Definition parseAuthority (authority : string)
  : result Error (option Userinfo * string) :=
  match GoStrings.LastIndexByte authority "@" with
  | None =>
      let? host := parseHost authority in
      Ok (None, host)
  | Some i =>
      let? host := parseHost (GoStrings.from (i + 1) authority) in
      let userinfo := GoStrings.upto i authority in
      if negb (validUserinfo userinfo) then Err ErrInvalidUserinfo
      else if negb (GoStrings.Contains userinfo ":") then
        let? name := unescape userinfo encodeUserPassword in
        Ok (Some {| username := name; password := EmptyString; passwordSet := false |}, host)
      else
        let '(name, pass, _) := GoStrings.Cut userinfo ":" in
        let? name := unescape name encodeUserPassword in
        let? pass := unescape pass encodeUserPassword in
        Ok (Some {| username := name; password := pass; passwordSet := true |}, host)
  end.

(** The end of [parse]: the authority, when [rest] opens with one, and the
    path. *)
Definition parse_authority_path (scheme rest rawQuery : string)
           (forceQuery viaRequest : bool) : result Error URL :=
  let? a :=
    if (negb (String.eqb scheme EmptyString)
        || negb viaRequest && negb (GoStrings.HasPrefix rest "///"))
       && GoStrings.HasPrefix rest "//"
    then
      let authority := GoStrings.from 2 rest in
      let '(authority, rest) :=
        match GoStrings.Index authority "/" with
        | Some i => (GoStrings.upto i authority, GoStrings.from i authority)
        | None => (authority, EmptyString)
        end in
      let? uh := parseAuthority authority in
      Ok (uh, rest)
    else Ok ((None, EmptyString), rest) in
  let '((user, host), rest) := a in
  let? path := unescape rest encodePath in
  Ok {| Scheme := scheme; Opaque := EmptyString; User := user; Host := host;
        Path := path; ForceQuery := forceQuery; RawQuery := rawQuery;
        Fragment := EmptyString |}.

(** The part of [parse] that follows the splitting of the query: a URL
    whose rest is rootless is opaque if it has a scheme, and may not have a
    colon in its first segment if it has none. *)
Definition parse_after_query (scheme rest rawQuery : string)
           (forceQuery viaRequest : bool) : result Error URL :=
  if negb (GoStrings.HasPrefix rest "/") then
    if negb (String.eqb scheme EmptyString) then
      Ok {| Scheme := scheme; Opaque := rest; User := None; Host := EmptyString;
            Path := EmptyString; ForceQuery := forceQuery; RawQuery := rawQuery;
            Fragment := EmptyString |}
    else if viaRequest then Err ErrInvalidURIForRequest
    else if GoStrings.Contains (fst (fst (GoStrings.Cut rest "/"))) ":" then
      Err ErrFirstPathSegmentColon
    else parse_authority_path scheme rest rawQuery forceQuery viaRequest
  else parse_authority_path scheme rest rawQuery forceQuery viaRequest.

(** [rest] without its query, the query, and [ForceQuery]. *)
Definition split_query (rest : string) : string * string * bool :=
  if GoStrings.HasSuffix rest "?" && (GoStrings.CountByte rest "?" =? 1)%nat
  then (GoStrings.upto (String.length rest - 1) rest, EmptyString, true)
  else let '(r, q, _) := GoStrings.Cut rest "?" in (r, q, false).

Definition parse (rawURL : string) (viaRequest : bool) : result Error URL :=
  if stringContainsCTLByte rawURL then Err ErrInvalidControlCharacter
  else if String.eqb rawURL EmptyString && viaRequest then Err ErrEmptyURL
  else if String.eqb rawURL "*" then
    Ok {| Scheme := EmptyString; Opaque := EmptyString; User := None;
          Host := EmptyString; Path := "*";
          ForceQuery := false; RawQuery := EmptyString; Fragment := EmptyString |}
  else
    let? sp := getScheme rawURL in
    let scheme := GoStrings.ToLower (fst sp) in
    let '(rest, rawQuery, forceQuery) := split_query (snd sp) in
    parse_after_query scheme rest rawQuery forceQuery viaRequest.

Definition setFragment (u : URL) (f : string) : result Error URL :=
  let? frag := unescape f encodeFragment in
  Ok {| Scheme := Scheme u; Opaque := Opaque u; User := User u; Host := Host u;
        Path := Path u; ForceQuery := ForceQuery u; RawQuery := RawQuery u;
        Fragment := frag |}.

Definition Parse (rawURL : string) : result Error URL :=
  let '(u, frag, _) := GoStrings.Cut rawURL "#" in
  let? url := parse u false in
  if String.eqb frag EmptyString then Ok url
  else setFragment url frag.

End NetURL.

(** ** The known event types ([events_list.go], generated) *)

Definition validEvents : gmap string bool :=
  list_to_map [
    ("*", true);
    ("account.application.authorized", true);
    ("account.application.deauthorized", true);
    ("account.external_account.created", true);
    ("account.external_account.deleted", true);
    ("account.external_account.updated", true);
    ("account.updated", true);
    ("application_fee.created", true);
    ("application_fee.refund.updated", true);
    ("application_fee.refunded", true);
    ("balance.available", true);
    ("billing_portal.configuration.created", true);
    ("billing_portal.configuration.updated", true);
    ("billing_portal.session.created", true);
    ("capability.updated", true);
    ("cash_balance.funds_available", true);
    ("charge.captured", true);
    ("charge.dispute.closed", true);
    ("charge.dispute.created", true);
    ("charge.dispute.funds_reinstated", true);
    ("charge.dispute.funds_withdrawn", true);
    ("charge.dispute.updated", true);
    ("charge.expired", true);
    ("charge.failed", true);
    ("charge.pending", true);
    ("charge.refund.updated", true);
    ("charge.refunded", true);
    ("charge.succeeded", true);
    ("charge.updated", true);
    ("checkout.session.async_payment_failed", true);
    ("checkout.session.async_payment_succeeded", true);
    ("checkout.session.completed", true);
    ("checkout.session.expired", true);
    ("coupon.created", true);
    ("coupon.deleted", true);
    ("coupon.updated", true);
    ("credit_note.created", true);
    ("credit_note.updated", true);
    ("credit_note.voided", true);
    ("customer.created", true);
    ("customer.deleted", true);
    ("customer.discount.created", true);
    ("customer.discount.deleted", true);
    ("customer.discount.updated", true);
    ("customer.source.created", true);
    ("customer.source.deleted", true);
    ("customer.source.expiring", true);
    ("customer.source.updated", true);
    ("customer.subscription.created", true);
    ("customer.subscription.deleted", true);
    ("customer.subscription.pending_update_applied", true);
    ("customer.subscription.pending_update_expired", true);
    ("customer.subscription.trial_will_end", true);
    ("customer.subscription.updated", true);
    ("customer.tax_id.created", true);
    ("customer.tax_id.deleted", true);
    ("customer.tax_id.updated", true);
    ("customer.updated", true);
    ("file.created", true);
    ("identity.verification_session.canceled", true);
    ("identity.verification_session.created", true);
    ("identity.verification_session.processing", true);
    ("identity.verification_session.redacted", true);
    ("identity.verification_session.requires_input", true);
    ("identity.verification_session.verified", true);
    ("invoice.created", true);
    ("invoice.deleted", true);
    ("invoice.finalization_failed", true);
    ("invoice.finalized", true);
    ("invoice.marked_uncollectible", true);
    ("invoice.paid", true);
    ("invoice.payment_action_required", true);
    ("invoice.payment_failed", true);
    ("invoice.payment_succeeded", true);
    ("invoice.sent", true);
    ("invoice.upcoming", true);
    ("invoice.updated", true);
    ("invoice.voided", true);
    ("invoiceitem.created", true);
    ("invoiceitem.deleted", true);
    ("invoiceitem.updated", true);
    ("issuing_authorization.created", true);
    ("issuing_authorization.request", true);
    ("issuing_authorization.updated", true);
    ("issuing_card.created", true);
    ("issuing_card.updated", true);
    ("issuing_cardholder.created", true);
    ("issuing_cardholder.updated", true);
    ("issuing_dispute.closed", true);
    ("issuing_dispute.created", true);
    ("issuing_dispute.funds_reinstated", true);
    ("issuing_dispute.submitted", true);
    ("issuing_dispute.updated", true);
    ("issuing_transaction.created", true);
    ("issuing_transaction.updated", true);
    ("mandate.updated", true);
    ("order.created", true);
    ("order.payment_failed", true);
    ("order.payment_succeeded", true);
    ("order.updated", true);
    ("order_return.created", true);
    ("payment_intent.amount_capturable_updated", true);
    ("payment_intent.canceled", true);
    ("payment_intent.created", true);
    ("payment_intent.partially_funded", true);
    ("payment_intent.payment_failed", true);
    ("payment_intent.processing", true);
    ("payment_intent.requires_action", true);
    ("payment_intent.succeeded", true);
    ("payment_link.created", true);
    ("payment_link.updated", true);
    ("payment_method.attached", true);
    ("payment_method.automatically_updated", true);
    ("payment_method.detached", true);
    ("payment_method.updated", true);
    ("payout.canceled", true);
    ("payout.created", true);
    ("payout.failed", true);
    ("payout.paid", true);
    ("payout.updated", true);
    ("person.created", true);
    ("person.deleted", true);
    ("person.updated", true);
    ("plan.created", true);
    ("plan.deleted", true);
    ("plan.updated", true);
    ("price.created", true);
    ("price.deleted", true);
    ("price.updated", true);
    ("product.created", true);
    ("product.deleted", true);
    ("product.updated", true);
    ("promotion_code.created", true);
    ("promotion_code.updated", true);
    ("quote.accepted", true);
    ("quote.canceled", true);
    ("quote.created", true);
    ("quote.finalized", true);
    ("radar.early_fraud_warning.created", true);
    ("radar.early_fraud_warning.updated", true);
    ("recipient.created", true);
    ("recipient.deleted", true);
    ("recipient.updated", true);
    ("reporting.report_run.failed", true);
    ("reporting.report_run.succeeded", true);
    ("reporting.report_type.updated", true);
    ("review.closed", true);
    ("review.opened", true);
    ("setup_intent.canceled", true);
    ("setup_intent.created", true);
    ("setup_intent.requires_action", true);
    ("setup_intent.setup_failed", true);
    ("setup_intent.succeeded", true);
    ("sigma.scheduled_query_run.created", true);
    ("sku.created", true);
    ("sku.deleted", true);
    ("sku.updated", true);
    ("source.canceled", true);
    ("source.chargeable", true);
    ("source.failed", true);
    ("source.mandate_notification", true);
    ("source.refund_attributes_required", true);
    ("source.transaction.created", true);
    ("source.transaction.updated", true);
    ("subscription_schedule.aborted", true);
    ("subscription_schedule.canceled", true);
    ("subscription_schedule.completed", true);
    ("subscription_schedule.created", true);
    ("subscription_schedule.expiring", true);
    ("subscription_schedule.released", true);
    ("subscription_schedule.updated", true);
    ("tax_rate.created", true);
    ("tax_rate.updated", true);
    ("terminal.reader.action_failed", true);
    ("terminal.reader.action_succeeded", true);
    ("test_helpers.test_clock.advancing", true);
    ("test_helpers.test_clock.created", true);
    ("test_helpers.test_clock.deleted", true);
    ("test_helpers.test_clock.internal_failure", true);
    ("test_helpers.test_clock.ready", true);
    ("topup.canceled", true);
    ("topup.created", true);
    ("topup.failed", true);
    ("topup.reversed", true);
    ("topup.succeeded", true);
    ("transfer.created", true);
    ("transfer.failed", true);
    ("transfer.paid", true);
    ("transfer.reversed", true);
    ("transfer.updated", true)
  ].

(** ** The types of the collaborators, as far as this file reads or builds
    them *)

Module requests.

(** An endpoint of the account's listing: its URL, the Connect application
    it belongs to (empty for a direct endpoint) and its event types. *)
Record WebhookEndpoint := {
  URL : string;
  Application : string;
  EnabledEvents : list string
}.

Record WebhookEndpointList := {
  Data : list WebhookEndpoint
}.

End requests.

(** [Config.ForwardHeaders] is [CfgForwardHeaders] here, the name being the
    route's field in the same module; [Config.Log], the logger, is left
    out. *)

Module proxy.

Record EndpointRoute := {
  URL : string;
  ForwardHeaders : list string;
  Connect : bool;
  EventTypes : list string
}.

Record Config := {
  DeviceName : string;
  Key : string;
  ForwardURL : string;
  CfgForwardHeaders : list string;
  ForwardConnectURL : string;
  ForwardConnectHeaders : list string;
  EndpointRoutes : list EndpointRoute;
  APIBaseURL : string;
  WebSocketFeature : string;
  PrintJSON : bool;
  UseLatestAPIVersion : bool;
  SkipVerify : bool;
  NoWSS : bool;
  Events : list string
}.

End proxy.

Definition webhooksWebSocketFeature : string := "webhooks".

Record listenCmd := {
  forwardURL : string;
  forwardHeaders : list string;
  forwardConnectHeaders : list string;
  forwardConnectURL : string;
  events : list string;
  latestAPIVersion : bool;
  livemode : bool;
  useConfiguredWebhooks : bool;
  printJSON : bool;
  skipVerify : bool;
  onlyPrintSecret : bool;
  skipUpdate : bool;
  apiBaseURL : string;
  noWSS : bool
}.

(** ** [buildForwardURL]

    [log.Fatalf] ends the process; the message it logs is the error of the
    result. *)

Definition buildForwardURL (forwardURL : string) (destination : NetURL.URL)
  : result string string :=
  match NetURL.Parse forwardURL with
  | Err _ => Err ("Provided forward url cannot be parsed: " +:+ forwardURL)
  | Ok f =>
      Ok (NetURL.Scheme f +:+ "://" +:+ NetURL.Host f
          +:+ GoStrings.TrimSuffix (NetURL.Path f) "/"
          +:+ NetURL.Path destination)
  end.

(** ** [buildEndpointRoutes]

    The loop over [endpoints.Data], appending to [endpointRoutes]; a fatal
    error of [buildForwardURL] ends it, and the process, at once. *)

Fixpoint buildEndpointRoutes_loop (data : list requests.WebhookEndpoint)
         (forwardURL forwardConnectURL : string)
         (forwardHeaders forwardConnectHeaders : list string)
         (endpointRoutes : list proxy.EndpointRoute)
  : result string (list proxy.EndpointRoute) :=
  match data with
  | nil => Ok endpointRoutes
  | endpoint :: data' =>
      match NetURL.Parse (requests.URL endpoint) with
      | Ok u =>
          if String.eqb (requests.Application endpoint) EmptyString then
            let? url := buildForwardURL forwardURL u in
            buildEndpointRoutes_loop data' forwardURL forwardConnectURL
              forwardHeaders forwardConnectHeaders
              (endpointRoutes ++
                 [ {| proxy.URL := url;
                      proxy.ForwardHeaders := forwardHeaders;
                      proxy.Connect := false;
                      proxy.EventTypes := requests.EnabledEvents endpoint |} ])%list
          else
            let? url := buildForwardURL forwardConnectURL u in
            buildEndpointRoutes_loop data' forwardURL forwardConnectURL
              forwardHeaders forwardConnectHeaders
              (endpointRoutes ++
                 [ {| proxy.URL := url;
                      proxy.ForwardHeaders := forwardConnectHeaders;
                      proxy.Connect := true;
                      proxy.EventTypes := requests.EnabledEvents endpoint |} ])%list
      | Err _ =>
          (* Silently skip over invalid paths *)
          buildEndpointRoutes_loop data' forwardURL forwardConnectURL
            forwardHeaders forwardConnectHeaders endpointRoutes
      end
  end.

Definition buildEndpointRoutes (endpoints : requests.WebhookEndpointList)
           (forwardURL forwardConnectURL : string)
           (forwardHeaders forwardConnectHeaders : list string)
  : result string (list proxy.EndpointRoute) :=
  buildEndpointRoutes_loop (requests.Data endpoints) forwardURL forwardConnectURL
    forwardHeaders forwardConnectHeaders nil.

(** ** [runListenCmd]

    The collaborators the command calls are the fields of a [World]: the
    profile ([GetDeviceName], [GetAPIKey]), the session secret, Stripe's
    default API base, the listing of the account's endpoints and the relay's
    [Run].  An [error] is its message. *)

Record World := {
  GetDeviceName : result string string;
  GetAPIKey : bool -> result string string;
  GetSessionSecret : string -> string -> string -> result string string;
  DefaultAPIBaseURL : string;
  WebhookEndpointsList : string -> string -> string -> requests.WebhookEndpointList;
  Run : proxy.Config -> option string
}.

(** What the command does besides returning, in order. *)
Inductive Effect :=
| CheckLatestVersion
| Printf (s : string)
| LogFatalf (s : string)
| ProxyRun (cfg : proxy.Config).

(** The command returns an [error] (or [nil]), or the process exits in
    [log.Fatalf]. *)
Inductive Outcome :=
| Return (err : option string)
| Exit.

Definition eventWarning (event : string) : string :=
  "Warning: You're attempting to listen for " +:+ String dquote event
  +:+ String dquote (", which isn't a valid event" +:+ String newline EmptyString).

(** The loop over [lc.events]. *)
Fixpoint eventWarnings (events : list string) : list Effect :=
  match events with
  | nil => nil
  | event :: events' =>
      match validEvents !! event with
      | Some _ => eventWarnings events'
      | None => Printf (eventWarning event) :: eventWarnings events'
      end
  end.

Definition getEndpointsFromAPI (w : World) (lc : listenCmd) (secretKey : string)
  : requests.WebhookEndpointList :=
  let apiBaseURL :=
    if String.eqb (apiBaseURL lc) EmptyString then DefaultAPIBaseURL w
    else apiBaseURL lc in
  WebhookEndpointsList w apiBaseURL "2019-03-14" secretKey.

Definition proxyConfig (lc : listenCmd) (deviceName key : string)
           (endpointRoutes : list proxy.EndpointRoute) : proxy.Config :=
  {| proxy.DeviceName := deviceName;
     proxy.Key := key;
     proxy.ForwardURL := forwardURL lc;
     proxy.CfgForwardHeaders := forwardHeaders lc;
     proxy.ForwardConnectURL := forwardConnectURL lc;
     proxy.ForwardConnectHeaders := forwardConnectHeaders lc;
     proxy.EndpointRoutes := endpointRoutes;
     proxy.APIBaseURL := apiBaseURL lc;
     proxy.WebSocketFeature := webhooksWebSocketFeature;
     proxy.PrintJSON := printJSON lc;
     proxy.UseLatestAPIVersion := latestAPIVersion lc;
     proxy.SkipVerify := skipVerify lc;
     proxy.NoWSS := noWSS lc;
     proxy.Events := events lc |}.

Definition runListenCmd (w : World) (lc : listenCmd) : list Effect * Outcome :=
  let t0 :=
    if negb (printJSON lc) && negb (onlyPrintSecret lc) && negb (skipUpdate lc)
    then [CheckLatestVersion] else [] in
  match GetDeviceName w with
  | Err err => (t0, Return (Some err))
  | Ok deviceName =>
  match GetAPIKey w (livemode lc) with
  | Err err => (t0, Return (Some err))
  | Ok key =>
      if onlyPrintSecret lc then
        (* --print-secret option *)
        match GetSessionSecret w deviceName key (apiBaseURL lc) with
        | Err err => (t0, Return (Some err))
        | Ok secret =>
            ((t0 ++ [Printf (secret +:+ String newline EmptyString)])%list, Return None)
        end
      else
        let t1 := (t0 ++ eventWarnings (events lc))%list in
        let start (endpointRoutes : list proxy.EndpointRoute) :=
          let cfg := proxyConfig lc deviceName key endpointRoutes in
          ((t1 ++ [ProxyRun cfg])%list, Return (Run w cfg)) in
        if useConfiguredWebhooks lc && (0 <? String.length (forwardURL lc))%nat then
          if GoStrings.HasPrefix (forwardURL lc) "/" then
            (t1, Return (Some
              "--forward-to cannot be a relative path when loading webhook endpoints from the API"))
          else if GoStrings.HasPrefix (forwardConnectURL lc) "/" then
            (t1, Return (Some
              "--forward-connect-to cannot be a relative path when loading webhook endpoints from the API"))
          else
            let endpoints := getEndpointsFromAPI w lc key in
            if (List.length (requests.Data endpoints) =? 0)%nat then
              (t1, Return (Some
                "You have not defined any webhook endpoints on your account. Go to the Stripe Dashboard to add some: https://dashboard.stripe.com/test/webhooks"))
            else
              match buildEndpointRoutes endpoints (parseURL (forwardURL lc))
                      (parseURL (forwardConnectURL lc))
                      (forwardHeaders lc) (forwardConnectHeaders lc) with
              | Err fatal => ((t1 ++ [LogFatalf fatal])%list, Exit)
              | Ok endpointRoutes => start endpointRoutes
              end
        else if useConfiguredWebhooks lc && (String.length (forwardURL lc) =? 0)%nat then
          (t1, Return (Some
            "--load-from-webhooks-api requires a location to forward to with --forward-to"))
        else start []
  end end.

(** The configuration the relay was started with, if it was. *)
Fixpoint relayStarted (t : list Effect) : option proxy.Config :=
  match t with
  | nil => None
  | ProxyRun cfg :: _ => Some cfg
  | _ :: t' => relayStarted t'
  end.

(** ** The resolver in the words of the specification (section 4.3)

    For each endpoint, in listing order: parse its URL and skip the endpoint
    if that fails; classify it as connect-scoped if it carries an
    application; compose the delivery URL from the matching target
    ([scheme://host] of the target, its path without a trailing [/], then
    the endpoint's path); emit the route with the matching headers, the
    classification and the endpoint's event types.  The two targets are
    given already normalized and parsed. *)

Definition Compose_spec (base : NetURL.URL) (destinationPath : string) : string :=
  NetURL.Scheme base +:+ "://" +:+ NetURL.Host base
  +:+ GoStrings.TrimSuffix (NetURL.Path base) "/" +:+ destinationPath.

Definition resolveEndpoint_spec (direct connect : NetURL.URL)
           (directHeaders connectHeaders : list string)
           (endpoint : requests.WebhookEndpoint) : option proxy.EndpointRoute :=
  match NetURL.Parse (requests.URL endpoint) with
  | Err _ => None
  | Ok u =>
      let isConnect := negb (String.eqb (requests.Application endpoint) EmptyString) in
      Some {| proxy.URL := Compose_spec (if isConnect then connect else direct) (NetURL.Path u);
              proxy.ForwardHeaders := if isConnect then connectHeaders else directHeaders;
              proxy.Connect := isConnect;
              proxy.EventTypes := requests.EnabledEvents endpoint |}
  end.

Definition Resolve_spec (direct connect : NetURL.URL)
           (directHeaders connectHeaders : list string)
           (endpoints : list requests.WebhookEndpoint) : list proxy.EndpointRoute :=
  omap (resolveEndpoint_spec direct connect directHeaders connectHeaders) endpoints.

(** A string is an absolute, scheme-qualified URL when [Parse] accepts it
    and finds a scheme ([URL.IsAbs]); it has scheme and host when [Parse]
    also finds a host. *)


Definition hasSchemeAndHost (s : string) : bool :=
  match NetURL.Parse s with
  | Ok u => negb (String.eqb (NetURL.Scheme u) EmptyString)
            && negb (String.eqb (NetURL.Host u) EmptyString)
  | Err _ => false
  end.

(** ** Concrete inputs of the examples *)

Definition endpoint (url application : string) : requests.WebhookEndpoint :=
  {| requests.URL := url;
     requests.Application := application;
     requests.EnabledEvents := ["*"] |}.

Definition route (url : string) (headers : list string) (connect : bool)
  : proxy.EndpointRoute :=
  {| proxy.URL := url;
     proxy.ForwardHeaders := headers;
     proxy.Connect := connect;
     proxy.EventTypes := ["*"] |}.

(** [stripe listen] with every flag at its default. *)
Definition defaultFlags : listenCmd :=
  {| forwardURL := EmptyString;
     forwardHeaders := [];
     forwardConnectHeaders := [];
     forwardConnectURL := EmptyString;
     events := ["*"];
     latestAPIVersion := false;
     livemode := false;
     useConfiguredWebhooks := false;
     printJSON := false;
     skipVerify := false;
     onlyPrintSecret := false;
     skipUpdate := false;
     apiBaseURL := EmptyString;
     noWSS := false |}.

Definition withForward (lc : listenCmd) (forwardTo forwardConnectTo : string)
  : listenCmd :=
  {| forwardURL := forwardTo;
     forwardHeaders := forwardHeaders lc;
     forwardConnectHeaders := forwardConnectHeaders lc;
     forwardConnectURL := forwardConnectTo;
     events := events lc;
     latestAPIVersion := latestAPIVersion lc;
     livemode := livemode lc;
     useConfiguredWebhooks := useConfiguredWebhooks lc;
     printJSON := printJSON lc;
     skipVerify := skipVerify lc;
     onlyPrintSecret := onlyPrintSecret lc;
     skipUpdate := skipUpdate lc;
     apiBaseURL := apiBaseURL lc;
     noWSS := noWSS lc |}.

Definition withEvents (lc : listenCmd) (evs : list string) : listenCmd :=
  {| forwardURL := forwardURL lc;
     forwardHeaders := forwardHeaders lc;
     forwardConnectHeaders := forwardConnectHeaders lc;
     forwardConnectURL := forwardConnectURL lc;
     events := evs;
     latestAPIVersion := latestAPIVersion lc;
     livemode := livemode lc;
     useConfiguredWebhooks := useConfiguredWebhooks lc;
     printJSON := printJSON lc;
     skipVerify := skipVerify lc;
     onlyPrintSecret := onlyPrintSecret lc;
     skipUpdate := skipUpdate lc;
     apiBaseURL := apiBaseURL lc;
     noWSS := noWSS lc |}.

(** [--use-configured-webhooks], with or without [--print-secret]. *)
Definition configuredWebhooks (printSecret : bool) (lc : listenCmd) : listenCmd :=
  {| forwardURL := forwardURL lc;
     forwardHeaders := forwardHeaders lc;
     forwardConnectHeaders := forwardConnectHeaders lc;
     forwardConnectURL := forwardConnectURL lc;
     events := events lc;
     latestAPIVersion := latestAPIVersion lc;
     livemode := livemode lc;
     useConfiguredWebhooks := true;
     printJSON := printJSON lc;
     skipVerify := skipVerify lc;
     onlyPrintSecret := printSecret;
     skipUpdate := skipUpdate lc;
     apiBaseURL := apiBaseURL lc;
     noWSS := noWSS lc |}.

(** A logged-in profile, an account with the endpoints [data], and a relay
    that runs until it is stopped without an error. *)
Definition accountWith (data : list requests.WebhookEndpoint) : World :=
  {| GetDeviceName := Ok "laptop";
     GetAPIKey := fun _ => Ok "sk_test_123";
     GetSessionSecret := fun _ _ _ => Ok "whsec_abc";
     DefaultAPIBaseURL := "https://api.stripe.com";
     WebhookEndpointsList := fun _ _ _ => {| requests.Data := data |};
     Run := fun _ => None |}.


(** The listing of three endpoints: a direct one, one whose URL is [middle],
    and one of a Connect application. *)
Definition listing (middle : string) : requests.WebhookEndpointList :=
  {| requests.Data :=
       [ endpoint "https://example.com/a" EmptyString;
         endpoint middle EmptyString;
         endpoint "https://example.com/b" "ca_123" ] |}.

(** What [Parse] makes of ["https://example.com/v1/hook?x=1#top"] and of
    ["https://example.com/v1/hook"]. *)
Definition hookURL (query fragment : string) : NetURL.URL :=
  {| NetURL.Scheme := "https";
     NetURL.Opaque := EmptyString;
     NetURL.User := None;
     NetURL.Host := "example.com";
     NetURL.Path := "/v1/hook";
     NetURL.ForceQuery := false;
     NetURL.RawQuery := query;
     NetURL.Fragment := fragment |}.

(** ** [newListenCmd]: the names of the flags

    The function given to [SetNormalizeFunc] keeps the old name of
    [--use-configured-webhooks] working. *)

Definition normalizeFlagName (name : string) : string :=
  if String.eqb name "load-from-webhooks-api" then "use-configured-webhooks"
  else name.

(** The flags the command defines, in the order of their definition, each
    with its shorthand (empty when it has none). *)
Definition listenFlags : list (string * string) :=
  [ ("connect-headers", EmptyString);
    ("events", "e");
    ("forward-to", "f");
    ("headers", "H");
    ("forward-connect-to", "c");
    ("latest", "l");
    ("live", EmptyString);
    ("print-json", "j");
    ("use-configured-webhooks", "a");
    ("skip-verify", EmptyString);
    ("print-secret", EmptyString);
    ("skip-update", "s");
    ("api-base", EmptyString);
    ("no-wss", EmptyString) ].

(** The same world with another account behind the API. *)
Definition withAccount (w : World) (defaultAPIBase : string)
           (list : string -> string -> string -> requests.WebhookEndpointList)
  : World :=
  {| GetDeviceName := GetDeviceName w;
     GetAPIKey := GetAPIKey w;
     GetSessionSecret := GetSessionSecret w;
     DefaultAPIBaseURL := defaultAPIBase;
     WebhookEndpointsList := list;
     Run := Run w |}.

(** The bytes of a string. *)
Fixpoint bytes (s : string) : list ascii :=
  match s with
  | EmptyString => nil
  | String c s' => c :: bytes s'
  end.

(** * Properties *)

(** ** Strings *)

Section StringFacts.

Lemma HasPrefix_append (p r : string) : GoStrings.HasPrefix (p +:+ r) p = true.
Proof.
  induction p as [|c p IH]; simpl.
  - reflexivity.
  - rewrite Ascii.eqb_refl. exact IH.
Qed.

Lemma HasPrefix_split (s p : string) :
  GoStrings.HasPrefix s p = true -> s = p +:+ GoStrings.from (String.length p) s.
Proof.
  revert s. induction p as [|c p IH]; intros s H; simpl in *.
  - reflexivity.
  - destruct s as [|d s]; [discriminate|].
    apply andb_true_iff in H as [Hc Hp].
    apply Ascii.eqb_eq in Hc. subst d.
    simpl. f_equal. apply IH, Hp.
Qed.

Lemma append_assoc (a b c : string) : (a +:+ b) +:+ c = a +:+ (b +:+ c).
Proof. induction a as [|x a IH]; simpl; [reflexivity | now rewrite IH]. Qed.

End StringFacts.

(** ** [strconv.Atoi] *)

Section AtoiFacts.

Lemma Atoi_loop_not_digit (c : ascii) (r : string) (n : Z) :
  is_digit c = false -> Strconv.Atoi_loop (String c r) n = Err Strconv.ErrSyntax.
Proof.
  destruct c as [[] [] [] [] [] [] [] []]; intros H;
    try discriminate H; reflexivity.
Qed.

Lemma Atoi_loop_digit (c : ascii) (r : string) (n : Z) :
  is_digit c = true ->
  Strconv.Atoi_loop (String c r) n
  = Strconv.Atoi_loop r (n * 10 + (Z.of_N (N_of_ascii c) - 48) mod 256)%Z.
Proof.
  destruct c as [[] [] [] [] [] [] [] []]; intros H;
    try discriminate H; reflexivity.
Qed.

Lemma digit_not_sign (c : ascii) :
  is_digit c = true -> Ascii.eqb c "-" = false /\ Ascii.eqb c "+" = false.
Proof.
  destruct c as [[] [] [] [] [] [] [] []]; intros H;
    try discriminate H; split; reflexivity.
Qed.

(** A string whose first byte is neither a digit nor a sign is no
    integer. *)
Lemma Atoi_bad_first (c : ascii) (r : string) :
  is_digit c = false -> Ascii.eqb c "-" = false -> Ascii.eqb c "+" = false ->
  Strconv.Atoi (String c r) = Err Strconv.ErrSyntax.
Proof.
  intros Hd Hm Hp. unfold Strconv.Atoi.
  destruct ((0 <? String.length (String c r))%nat
            && (String.length (String c r) <? 19)%nat).
  - rewrite Hm, Hp. cbn [orb andb]. now rewrite Atoi_loop_not_digit.
  - unfold Strconv.ParseInt10. rewrite Hm, Hp.
    unfold Strconv.ParseUint10. cbn [Strconv.ParseUint_loop]. now rewrite Hd.
Qed.

Lemma Atoi_h (r : string) :
  Strconv.Atoi (String "h" r) = Err Strconv.ErrSyntax.
Proof. now apply Atoi_bad_first. Qed.

Lemma Atoi_loop_digits (s : string) : forall n : Z,
  NetURL.all_digits s = true -> exists v, Strconv.Atoi_loop s n = Ok v.
Proof.
  induction s as [|c s IH]; intros n H.
  - now exists n.
  - cbn [NetURL.all_digits] in H. apply andb_true_iff in H as [Hc Hs].
    rewrite (Atoi_loop_digit _ _ _ Hc). now apply IH.
Qed.

(** Every non-empty string of fewer than 19 decimal digits is an
    integer for [Atoi]. *)
Lemma Atoi_digits (s : string) :
  NetURL.all_digits s = true ->
  0 < String.length s < 19 ->
  exists v, Strconv.Atoi s = Ok v.
Proof.
  intros Hs [Hpos Hlt]. unfold Strconv.Atoi.
  replace (0 <? String.length s)%nat with true by (symmetry; now apply Nat.ltb_lt).
  replace (String.length s <? 19)%nat with true by (symmetry; now apply Nat.ltb_lt).
  cbn [andb]. destruct s as [|c s]; [simpl in Hpos; lia|].
  pose proof Hs as Hs'. cbn [NetURL.all_digits] in Hs'.
  apply andb_true_iff in Hs' as [Hc _].
  destruct (digit_not_sign _ Hc) as [-> ->]. cbn [orb andb].
  destruct (Atoi_loop_digits _ 0%Z Hs) as [v ->]. eauto.
Qed.

End AtoiFacts.

(** ** [parseURL] *)

Section ParseURLFacts.

(** The last step of [parseURL] leaves a string that opens with one of the
    two schemes. *)
Lemma parseURL_scheme_prefix (s : string) :
  (exists r, parseURL s = "http://" +:+ r) \/ (exists r, parseURL s = "https://" +:+ r).
Proof.
  unfold parseURL.
  set (u1 := if is_ok (Strconv.Atoi s) then _ else _).
  set (u2 := if GoStrings.HasPrefix u1 "/" then _ else _).
  destruct (GoStrings.HasPrefix u2 "http://") eqn:Hh;
    [| destruct (GoStrings.HasPrefix u2 "https://") eqn:Hs]; cbv [negb andb].
  - left. eexists. apply (HasPrefix_split _ _ Hh).
  - right. eexists. apply (HasPrefix_split _ _ Hs).
  - left. exists u2. reflexivity.
Qed.

Lemma parseURL_fixed_http (r : string) : parseURL ("http://" +:+ r) = "http://" +:+ r.
Proof. unfold parseURL. simpl append. rewrite Atoi_h. reflexivity. Qed.

Lemma parseURL_fixed_https (r : string) : parseURL ("https://" +:+ r) = "https://" +:+ r.
Proof. unfold parseURL. simpl append. rewrite Atoi_h. reflexivity. Qed.

(** X1. An input that starts with [/] is taken for a path on localhost:
    it is completed to [http://localhost] followed by the input. *)
Lemma parseURL_relative_path (p : string) :
  GoStrings.HasPrefix p "/" = true -> parseURL p = "http://localhost" +:+ p.
Proof.
  intros H. apply HasPrefix_split in H. rewrite H. simpl append.
  unfold parseURL. rewrite Atoi_bad_first by reflexivity. reflexivity.
Qed.

(** X2. An input that already starts with [http://] or [https://] is
    returned unchanged. *)
Lemma parseURL_absolute (u : string) :
  GoStrings.HasPrefix u "http://" = true \/ GoStrings.HasPrefix u "https://" = true ->
  parseURL u = u.
Proof.
  intros [H | H]; apply HasPrefix_split in H; rewrite H.
  - apply parseURL_fixed_http.
  - apply parseURL_fixed_https.
Qed.

End ParseURLFacts.

Lemma parseURL_relative_path_witness :
  parseURL "/hooks/stripe" = "http://localhost" +:+ "/hooks/stripe".
Proof. apply (parseURL_relative_path "/hooks/stripe"). reflexivity. Defined.

Lemma parseURL_absolute_witness :
  parseURL "https://example.test:8443/in" = "https://example.test:8443/in".
Proof. apply (parseURL_absolute "https://example.test:8443/in"). right. reflexivity. Defined.

(** C6. For every string [n] that [strconv.Atoi] parses as an integer,
    [parseURL n] is ["http://localhost:"] followed by [n]: the number is
    taken for a port on localhost and given the http scheme. *)
Theorem parseURL_integer (n : string) (v : Z) :
  Strconv.Atoi n = Ok v -> parseURL n = "http://localhost:" +:+ n.
Proof.
  intros H. unfold parseURL. rewrite H. reflexivity.
Qed.

Lemma parseURL_integer_witness :
  Strconv.Atoi "3000" = Ok 3000%Z /\ parseURL "3000" = "http://localhost:" +:+ "3000".
Proof.
  split; [reflexivity | apply (parseURL_integer "3000" 3000%Z); reflexivity].
Defined.

(** C8. [parseURL] is idempotent: applying it to its own result changes
    nothing. *)
Theorem parseURL_idempotent (x : string) : parseURL (parseURL x) = parseURL x.
Proof.
  destruct (parseURL_scheme_prefix x) as [[r ->] | [r ->]].
  - apply parseURL_fixed_http.
  - apply parseURL_fixed_https.
Qed.

(** ** [net/url.Parse] *)

Section ParseFacts.

Import NetURL.

Lemma parse_authority_path_Scheme scheme rest rawQuery forceQuery viaRequest u :
  parse_authority_path scheme rest rawQuery forceQuery viaRequest = Ok u ->
  Scheme u = scheme.
Proof.
  unfold parse_authority_path.
  destruct (if _ : bool then _ else _) as [[[user host] rest'] | e]; [|discriminate].
  destruct (unescape rest' encodePath) as [path | e]; [|discriminate].
  intros [= <-]. reflexivity.
Qed.

Lemma parse_after_query_Scheme scheme rest rawQuery forceQuery viaRequest u :
  parse_after_query scheme rest rawQuery forceQuery viaRequest = Ok u ->
  Scheme u = scheme.
Proof.
  unfold parse_after_query. intros H.
  repeat match type of H with
         | (if ?c then _ else _) = _ => destruct c
         end;
    try discriminate;
    try (injection H as <-; reflexivity);
    eapply parse_authority_path_Scheme; eassumption.
Qed.

(** The scheme of a parsed URL is the lower-cased scheme that [getScheme]
    split off. *)
Lemma parse_Scheme rawURL viaRequest u :
  parse rawURL viaRequest = Ok u ->
  String.eqb rawURL "*" = false ->
  exists sp, getScheme rawURL = Ok sp /\ Scheme u = GoStrings.ToLower (fst sp).
Proof.
  unfold parse. intros H Hstar. rewrite Hstar in H.
  destruct (stringContainsCTLByte rawURL); [discriminate|].
  destruct (String.eqb rawURL EmptyString && viaRequest); [discriminate|].
  destruct (getScheme rawURL) as [sp | e]; [|discriminate].
  exists sp. split; [reflexivity|].
  destruct (split_query (snd sp)) as [[rest rawQuery] forceQuery].
  eapply parse_after_query_Scheme; eassumption.
Qed.

Lemma setFragment_fields u f u' :
  setFragment u f = Ok u' ->
  Scheme u' = Scheme u /\ Host u' = Host u /\ Path u' = Path u.
Proof.
  unfold setFragment. destruct (unescape f encodeFragment); [|discriminate].
  intros [= <-]. auto.
Qed.

(** [Parse] is [parse] on what precedes the first [#]; the fragment changes
    none of scheme, host and path. *)
Lemma Parse_parse rawURL u :
  Parse rawURL = Ok u ->
  exists u0, parse (fst (fst (GoStrings.Cut rawURL "#"))) false = Ok u0
             /\ Scheme u = Scheme u0 /\ Host u = Host u0 /\ Path u = Path u0.
Proof.
  unfold Parse. destruct (GoStrings.Cut rawURL "#") as [[raw frag] b]. simpl fst.
  destruct (parse raw false) as [u0 | e]; [|discriminate].
  destruct (String.eqb frag EmptyString).
  - intros [= <-]. eauto.
  - intros H. exists u0. split; [reflexivity|].
    apply (setFragment_fields _ _ _ H).
Qed.

Lemma Cut_hash_http (r : string) :
  exists r', fst (fst (GoStrings.Cut ("http://" +:+ r) "#")) = "http://" +:+ r'.
Proof.
  unfold GoStrings.Cut. simpl.
  destruct (GoStrings.Index r "#") as [i|]; simpl; eauto.
Qed.

Lemma Cut_hash_https (r : string) :
  exists r', fst (fst (GoStrings.Cut ("https://" +:+ r) "#")) = "https://" +:+ r'.
Proof.
  unfold GoStrings.Cut. simpl.
  destruct (GoStrings.Index r "#") as [i|]; simpl; eauto.
Qed.

Lemma Parse_http_Scheme r u :
  Parse ("http://" +:+ r) = Ok u -> Scheme u = "http".
Proof.
  intros H. apply Parse_parse in H as (u0 & H0 & -> & _).
  destruct (Cut_hash_http r) as [r' Hr]. rewrite Hr in H0.
  apply parse_Scheme in H0 as (sp & Hsp & ->); [|reflexivity].
  cbv in Hsp. injection Hsp as <-. reflexivity.
Qed.

Lemma Parse_https_Scheme r u :
  Parse ("https://" +:+ r) = Ok u -> Scheme u = "https".
Proof.
  intros H. apply Parse_parse in H as (u0 & H0 & -> & _).
  destruct (Cut_hash_https r) as [r' Hr]. rewrite Hr in H0.
  apply parse_Scheme in H0 as (sp & Hsp & ->); [|reflexivity].
  cbv in Hsp. injection Hsp as <-. reflexivity.
Qed.

(** Whatever [parseURL] returns, [Parse] reads one of the two schemes from
    it, when it accepts it at all. *)
Lemma Parse_parseURL_Scheme s u :
  Parse (parseURL s) = Ok u -> Scheme u = "http" \/ Scheme u = "https".
Proof.
  destruct (parseURL_scheme_prefix s) as [[r ->] | [r ->]]; intros H.
  - left. eapply Parse_http_Scheme, H.
  - right. eapply Parse_https_Scheme, H.
Qed.

End ParseFacts.

(** ** Slicing and cutting strings that end in a query or a fragment *)

Section CutFacts.

Lemma append_nil_r (s : string) : s +:+ EmptyString = s.
Proof. induction s as [|c s IH]; simpl; [reflexivity | now rewrite IH]. Qed.

Lemma length_append (s t : string) :
  String.length (s +:+ t) = String.length s + String.length t.
Proof. induction s as [|c s IH]; simpl; [reflexivity | now rewrite IH]. Qed.

Lemma upto_append (s t : string) (n : nat) :
  GoStrings.upto (String.length s + n) (s +:+ t) = s +:+ GoStrings.upto n t.
Proof. induction s as [|c s IH]; simpl; [reflexivity | now rewrite IH]. Qed.

Lemma from_append (s t : string) (n : nat) :
  GoStrings.from (String.length s + n) (s +:+ t) = GoStrings.from n t.
Proof. induction s as [|c s IH]; simpl; [reflexivity | exact IH]. Qed.

Lemma upto_append_le (s t : string) (n : nat) :
  n <= String.length s -> GoStrings.upto n (s +:+ t) = GoStrings.upto n s.
Proof.
  revert n. induction s as [|c s IH]; intros [|n] Hn; simpl in *;
    try reflexivity; try lia.
  now rewrite IH by lia.
Qed.

Lemma from_append_le (s t : string) (n : nat) :
  n <= String.length s -> GoStrings.from n (s +:+ t) = GoStrings.from n s +:+ t.
Proof.
  revert n. induction s as [|c s IH]; intros [|n] Hn; simpl in *;
    try reflexivity; try lia.
  apply IH. lia.
Qed.

Variable c : ascii.

Lemma Index_byte_cons (d : ascii) (s : string) :
  GoStrings.Index (String d s) (String c EmptyString)
  = if Ascii.eqb d c then Some 0
    else option_map S (GoStrings.Index s (String c EmptyString)).
Proof. simpl. now rewrite andb_true_r. Qed.

Lemma Index_byte_nil : GoStrings.Index EmptyString (String c EmptyString) = None.
Proof. reflexivity. Qed.

Lemma Index_byte_append (s t : string) :
  GoStrings.Index s (String c EmptyString) = None ->
  GoStrings.Index (s +:+ t) (String c EmptyString)
  = option_map (fun i => String.length s + i) (GoStrings.Index t (String c EmptyString)).
Proof.
  induction s as [|d s IH]; intros H.
  - simpl append. now destruct (GoStrings.Index t _).
  - rewrite Index_byte_cons in H. simpl append. rewrite Index_byte_cons.
    destruct (Ascii.eqb d c); [discriminate|].
    destruct (GoStrings.Index s _); [discriminate|].
    rewrite IH by reflexivity.
    now destruct (GoStrings.Index t _).
Qed.

Lemma Index_byte_from (s : string) (n : nat) :
  GoStrings.Index s (String c EmptyString) = None ->
  GoStrings.Index (GoStrings.from n s) (String c EmptyString) = None.
Proof.
  revert s. induction n as [|n IH]; intros s H; [exact H|].
  destruct s as [|d s]; [reflexivity|].
  simpl GoStrings.from. apply IH.
  rewrite Index_byte_cons in H.
  destruct (Ascii.eqb d c); [discriminate|].
  now destruct (GoStrings.Index s _).
Qed.

Lemma CountByte_no_Index (s : string) :
  GoStrings.Index s (String c EmptyString) = None -> GoStrings.CountByte s c = 0.
Proof.
  induction s as [|d s IH]; intros H; [reflexivity|].
  rewrite Index_byte_cons in H. simpl.
  destruct (Ascii.eqb d c); [discriminate|].
  destruct (GoStrings.Index s _); [discriminate|].
  now rewrite IH.
Qed.

Lemma CountByte_append (s t : string) :
  GoStrings.CountByte (s +:+ t) c = GoStrings.CountByte s c + GoStrings.CountByte t c.
Proof. induction s as [|d s IH]; simpl; [reflexivity | rewrite IH; lia]. Qed.

(** [Cut] does not look at what precedes a part without the separator. *)
Lemma Cut_append (s t : string) :
  GoStrings.Index s (String c EmptyString) = None ->
  GoStrings.Cut (s +:+ t) (String c EmptyString)
  = let '(a, b, found) := GoStrings.Cut t (String c EmptyString) in (s +:+ a, b, found).
Proof.
  intros H. unfold GoStrings.Cut. rewrite (Index_byte_append _ _ H).
  destruct (GoStrings.Index t _) as [i|]; simpl option_map; cbv iota.
  - rewrite upto_append, <- Nat.add_assoc, from_append. reflexivity.
  - reflexivity.
Qed.

Lemma Cut_none (s : string) :
  GoStrings.Index s (String c EmptyString) = None ->
  GoStrings.Cut s (String c EmptyString) = (s, EmptyString, false).
Proof. intros H. unfold GoStrings.Cut. now rewrite H. Qed.

Lemma Cut_here (t : string) :
  GoStrings.Cut (String c t) (String c EmptyString) = (EmptyString, t, true).
Proof.
  unfold GoStrings.Cut. rewrite Index_byte_cons, Ascii.eqb_refl. reflexivity.
Qed.

(** The last byte of a string is that of any non-empty end of it. *)
Lemma HasSuffix_byte_append (s : string) (d : ascii) (t : string) :
  GoStrings.HasSuffix (s +:+ String d t) (String c EmptyString)
  = GoStrings.HasSuffix (String d t) (String c EmptyString).
Proof.
  unfold GoStrings.HasSuffix. rewrite length_append.
  cbn [String.length].
  replace (String.length s + S (String.length t) - 1)
    with (String.length s + (S (String.length t) - 1)) by lia.
  rewrite from_append.
  replace (1 <=? String.length s + S (String.length t))%nat with true
    by (symmetry; apply Nat.leb_le; lia).
  replace (1 <=? S (String.length t))%nat with true
    by (symmetry; apply Nat.leb_le; lia).
  reflexivity.
Qed.

Lemma HasSuffix_byte_count (s : string) :
  GoStrings.HasSuffix s (String c EmptyString) = true -> 1 <= GoStrings.CountByte s c.
Proof.
  induction s as [|d s IH]; intros H; [discriminate|].
  destruct s as [|d' s].
  - unfold GoStrings.HasSuffix in H. simpl in H. simpl.
    destruct (Ascii.eqb d c); [lia | discriminate].
  - change (String d (String d' s)) with (String d EmptyString +:+ String d' s) in H.
    rewrite HasSuffix_byte_append in H.
    specialize (IH H). cbn [GoStrings.CountByte] in *. lia.
Qed.

End CutFacts.

(** ** [Parse] on a URL followed by a query or a fragment *)

Section QueryFacts.

Import NetURL.

Lemma stringContainsCTLByte_append (s t : string) :
  stringContainsCTLByte (s +:+ t)
  = stringContainsCTLByte s || stringContainsCTLByte t.
Proof.
  induction s as [|c s IH]; simpl; [reflexivity|].
  rewrite IH, !orb_assoc. reflexivity.
Qed.

Lemma eqb_append_star (s : string) (c : ascii) (t : string) :
  Ascii.eqb c "*" = false ->
  String.eqb s "*" = false -> String.eqb (s +:+ String c t) "*" = false.
Proof.
  intros Hc. destruct s as [|d [|d' s]]; simpl; intros H; try reflexivity.
  - now rewrite Hc.
  - destruct (Ascii.eqb d "*"); [discriminate | reflexivity].
  - destruct (Ascii.eqb d "*"); reflexivity.
Qed.

(** [q] is a byte that can neither continue nor end a scheme. *)
Lemma getScheme_loop_append (q : ascii) (x : string) :
  is_alpha q = false ->
  (is_digit q || byte_in q "+-.") = false ->
  Ascii.eqb q ":" = false ->
  forall (s rawURL : string) (i : nat),
    i + String.length s = String.length rawURL ->
    getScheme_loop (rawURL +:+ String q x) i (s +:+ String q x)
    = match getScheme_loop rawURL i s with
      | Ok (scheme, rest) => Ok (scheme, rest +:+ String q x)
      | Err e => Err e
      end.
Proof.
  intros Ha Hd Hc.
  induction s as [|c s IH]; intros rawURL i Hlen.
  - simpl append. cbn [getScheme_loop]. rewrite Ha, Hd, Hc. reflexivity.
  - simpl append. cbn [getScheme_loop]. simpl String.length in Hlen.
    destruct (is_alpha c); [apply IH; lia|].
    destruct (is_digit c || byte_in c "+-.").
    { destruct (i =? 0)%nat; [reflexivity | apply IH; lia]. }
    destruct (Ascii.eqb c ":"); [|reflexivity].
    destruct (i =? 0)%nat; [reflexivity|].
    rewrite upto_append_le, from_append_le by lia. reflexivity.
Qed.

Lemma getScheme_loop_rest (s rawURL : string) : forall (i : nat) scheme rest,
  getScheme_loop rawURL i s = Ok (scheme, rest) ->
  exists n, rest = GoStrings.from n rawURL.
Proof.
  induction s as [|c s IH]; intros i scheme rest; cbn [getScheme_loop].
  - intros [= _ <-]. now exists 0.
  - destruct (is_alpha c); [apply IH|].
    destruct (is_digit c || byte_in c "+-.").
    { destruct (i =? 0)%nat; [intros [= _ <-]; now exists 0 | apply IH]. }
    destruct (Ascii.eqb c ":").
    + destruct (i =? 0)%nat; [discriminate|]. intros [= _ <-]. now exists (i + 1).
    + intros [= _ <-]. now exists 0.
Qed.

Lemma split_query_none (rest : string) :
  GoStrings.Index rest "?" = None ->
  split_query rest = (rest, EmptyString, false).
Proof.
  intros H. unfold split_query.
  rewrite (CountByte_no_Index _ _ H), andb_false_r, (Cut_none _ _ H). reflexivity.
Qed.

(** Whatever follows the first [?] goes to the query. *)
Lemma split_query_append (rest q : string) :
  GoStrings.Index rest "?" = None ->
  exists rawQuery forceQuery,
    split_query (rest +:+ String "?" q) = (rest, rawQuery, forceQuery).
Proof.
  intros H. unfold split_query.
  destruct (GoStrings.HasSuffix _ _ && _) eqn:Hforce.
  - apply andb_true_iff in Hforce as [Hsuf Hcount].
    apply Nat.eqb_eq in Hcount.
    rewrite CountByte_append, (CountByte_no_Index _ _ H) in Hcount.
    cbn [GoStrings.CountByte] in Hcount. rewrite Ascii.eqb_refl in Hcount.
    destruct q as [|d q].
    + do 2 eexists. rewrite length_append. cbn [String.length].
      replace (String.length rest + 1 - 1) with (String.length rest + 0) by lia.
      rewrite upto_append. simpl. now rewrite append_nil_r.
    + change (rest +:+ String "?" (String d q))
        with (rest +:+ String "?" (EmptyString +:+ String d q)) in Hsuf.
      change (String "?" (EmptyString +:+ String d q))
        with (String "?" EmptyString +:+ String d q) in Hsuf.
      rewrite <- append_assoc, HasSuffix_byte_append in Hsuf.
      apply HasSuffix_byte_count in Hsuf. lia.
  - rewrite (Cut_append _ _ _ H), Cut_here, append_nil_r. eauto.
Qed.

Lemma parse_authority_path_query scheme rest q fq q' fq' viaRequest u :
  parse_authority_path scheme rest q fq viaRequest = Ok u ->
  exists u', parse_authority_path scheme rest q' fq' viaRequest = Ok u'
             /\ Scheme u' = Scheme u /\ Host u' = Host u /\ Path u' = Path u.
Proof.
  unfold parse_authority_path.
  destruct (if _ : bool then _ else _) as [[[user host] rest'] | e]; [|discriminate].
  destruct (unescape rest' encodePath) as [path | e]; [|discriminate].
  intros [= <-]. eexists. split; [reflexivity | auto].
Qed.

(** Scheme, host and path are decided by the scheme and the rest alone. *)
Lemma parse_after_query_query scheme rest q fq q' fq' viaRequest u :
  parse_after_query scheme rest q fq viaRequest = Ok u ->
  exists u', parse_after_query scheme rest q' fq' viaRequest = Ok u'
             /\ Scheme u' = Scheme u /\ Host u' = Host u /\ Path u' = Path u.
Proof.
  unfold parse_after_query. intros H.
  repeat match type of H with
         | (if ?c then _ else _) = _ => destruct c
         end;
    try discriminate;
    try (injection H as <-; eexists; split; [reflexivity | auto]);
    eapply parse_authority_path_query; eassumption.
Qed.

Lemma parse_query rawURL q viaRequest u u' :
  GoStrings.Index rawURL "?" = None ->
  parse rawURL viaRequest = Ok u ->
  parse (rawURL +:+ String "?" q) viaRequest = Ok u' ->
  Scheme u' = Scheme u /\ Host u' = Host u /\ Path u' = Path u.
Proof.
  intros Hq Hu Hu'. unfold parse in Hu, Hu'.
  destruct (stringContainsCTLByte rawURL); [discriminate|].
  destruct (stringContainsCTLByte (rawURL +:+ String "?" q)); [discriminate|].
  destruct (String.eqb rawURL EmptyString && viaRequest); [discriminate|].
  destruct (String.eqb (rawURL +:+ String "?" q) EmptyString && viaRequest);
    [discriminate|].
  unfold getScheme in Hu, Hu'.
  rewrite (getScheme_loop_append "?" q) in Hu' by reflexivity.
  destruct (String.eqb rawURL "*") eqn:Hstar.
  - apply String.eqb_eq in Hstar. subst rawURL. injection Hu as <-.
    simpl String.eqb in Hu'. cbn [getScheme_loop] in Hu'.
    change (is_alpha "*") with false in Hu'.
    change (is_digit "*" || byte_in "*" "+-.") with false in Hu'.
    change (Ascii.eqb "*" ":") with false in Hu'. cbv iota in Hu'.
    cbn [fst snd] in Hu'.
    destruct (split_query_append "*" q) as (rq & fq & Hs); [reflexivity|].
    rewrite Hs in Hu'.
    destruct viaRequest; vm_compute in Hu'; [discriminate|].
    injection Hu' as <-. auto.
  - rewrite (eqb_append_star _ "?" _ eq_refl Hstar) in Hu'.
    destruct (getScheme_loop rawURL 0 rawURL) as [[scheme rest] | e] eqn:Hsch;
      [|discriminate].
    cbn [fst snd] in Hu, Hu'.
    destruct (getScheme_loop_rest _ _ _ _ _ Hsch) as [n ->].
    pose proof (Index_byte_from "?" _ n Hq) as Hrest.
    rewrite (split_query_none _ Hrest) in Hu.
    destruct (split_query_append _ q Hrest) as (rq & fq & Hs).
    rewrite Hs in Hu'.
    destruct (parse_after_query_query _ _ _ _ rq fq _ _ Hu) as (u'' & Hu'' & Hfields).
    rewrite Hu'' in Hu'. injection Hu' as <-. exact Hfields.
Qed.

(** The query string and the fragment of a URL are kept out of its
    path (and of its scheme and host). *)
Lemma Parse_query (rawURL q : string) (u u' : URL) :
  GoStrings.Index rawURL "?" = None ->
  GoStrings.Index rawURL "#" = None ->
  Parse rawURL = Ok u ->
  Parse (rawURL +:+ String "?" q) = Ok u' ->
  Scheme u' = Scheme u /\ Host u' = Host u /\ Path u' = Path u.
Proof.
  intros Hq Hh Hu Hu'.
  apply Parse_parse in Hu as (u0 & Hu0 & -> & -> & ->).
  apply Parse_parse in Hu' as (u0' & Hu0' & -> & -> & ->).
  rewrite (Cut_none _ _ Hh) in Hu0. cbn [fst] in Hu0.
  rewrite (Cut_append _ _ _ Hh) in Hu0'.
  unfold GoStrings.Cut in Hu0' at 1.
  rewrite Index_byte_cons in Hu0'. change (Ascii.eqb "?" "#") with false in Hu0'.
  cbv iota in Hu0'.
  destruct (GoStrings.Index q "#") as [i|]; cbn [option_map fst GoStrings.upto] in Hu0'.
  - eapply parse_query; eassumption.
  - eapply parse_query; eassumption.
Qed.

Lemma Parse_fragment (rawURL frag : string) (u u' : URL) :
  GoStrings.Index rawURL "#" = None ->
  Parse rawURL = Ok u ->
  Parse (rawURL +:+ String "#" frag) = Ok u' ->
  Scheme u' = Scheme u /\ Host u' = Host u /\ Path u' = Path u.
Proof.
  intros Hh Hu Hu'.
  apply Parse_parse in Hu as (u0 & Hu0 & -> & -> & ->).
  apply Parse_parse in Hu' as (u0' & Hu0' & -> & -> & ->).
  rewrite (Cut_none _ _ Hh) in Hu0.
  rewrite (Cut_append _ _ _ Hh), Cut_here, append_nil_r in Hu0'.
  cbn [fst] in Hu0, Hu0'. rewrite Hu0 in Hu0'. injection Hu0' as <-. auto.
Qed.

End QueryFacts.

(** ** [buildForwardURL] and [buildEndpointRoutes] *)

Section RouteFacts.

Lemma buildForwardURL_Compose forwardURL f destination :
  NetURL.Parse forwardURL = Ok f ->
  buildForwardURL forwardURL destination = Ok (Compose_spec f (NetURL.Path destination)).
Proof. intros H. unfold buildForwardURL. rewrite H. reflexivity. Qed.

Lemma buildForwardURL_fatal forwardURL e destination :
  NetURL.Parse forwardURL = Err e ->
  buildForwardURL forwardURL destination
  = Err ("Provided forward url cannot be parsed: " +:+ forwardURL).
Proof. intros H. unfold buildForwardURL. rewrite H. reflexivity. Qed.

(** An endpoint that parses and whose target does not ends the loop, and
    the process, in [log.Fatalf]. *)
Lemma buildEndpointRoutes_loop_fatal endpoint data forwardURL forwardConnectURL
      forwardHeaders forwardConnectHeaders endpointRoutes u err :
  NetURL.Parse (requests.URL endpoint) = Ok u ->
  NetURL.Parse (if String.eqb (requests.Application endpoint) EmptyString
                then forwardURL else forwardConnectURL) = Err err ->
  buildEndpointRoutes_loop (endpoint :: data) forwardURL forwardConnectURL
    forwardHeaders forwardConnectHeaders endpointRoutes
  = Err ("Provided forward url cannot be parsed: "
         +:+ (if String.eqb (requests.Application endpoint) EmptyString
              then forwardURL else forwardConnectURL)).
Proof.
  intros Hu Ht. cbn [buildEndpointRoutes_loop]. rewrite Hu.
  destruct (String.eqb (requests.Application endpoint) EmptyString);
    now rewrite (buildForwardURL_fatal _ _ _ Ht).
Qed.

Variables (forwardURL forwardConnectURL : string) (fd fc : NetURL.URL).
Variables (forwardHeaders forwardConnectHeaders : list string).
Hypothesis Hdirect : NetURL.Parse forwardURL = Ok fd.
Hypothesis Hconnect : NetURL.Parse forwardConnectURL = Ok fc.

(** With two targets that parse, the loop appends to [endpointRoutes] the
    routes of the specification, and never ends in [log.Fatalf]. *)
Lemma buildEndpointRoutes_loop_spec data : forall endpointRoutes,
  buildEndpointRoutes_loop data forwardURL forwardConnectURL
    forwardHeaders forwardConnectHeaders endpointRoutes
  = Ok (endpointRoutes
        ++ Resolve_spec fd fc forwardHeaders forwardConnectHeaders data)%list.
Proof.
  induction data as [|e data IH]; intros acc; simpl.
  - now rewrite app_nil_r.
  - unfold Resolve_spec; simpl omap. unfold resolveEndpoint_spec at 1.
    destruct (NetURL.Parse (requests.URL e)) as [u|err].
    + destruct (String.eqb (requests.Application e) EmptyString); simpl negb; cbv iota.
      * rewrite (buildForwardURL_Compose _ _ _ Hdirect), IH.
        now rewrite <- app_assoc.
      * rewrite (buildForwardURL_Compose _ _ _ Hconnect), IH.
        now rewrite <- app_assoc.
    + apply IH.
Qed.

Lemma buildEndpointRoutes_spec endpoints :
  buildEndpointRoutes endpoints forwardURL forwardConnectURL
    forwardHeaders forwardConnectHeaders
  = Ok (Resolve_spec fd fc forwardHeaders forwardConnectHeaders
          (requests.Data endpoints)).
Proof. unfold buildEndpointRoutes. now rewrite buildEndpointRoutes_loop_spec. Qed.


End RouteFacts.



(** ** Route resolution *)

Example Parse_hookURL :
  NetURL.Parse "https://example.com/v1/hook?x=1#top" = Ok (hookURL "x=1" "top")
  /\ NetURL.Parse "https://example.com/v1/hook" = Ok (hookURL EmptyString EmptyString).
Proof. split; vm_compute; reflexivity. Qed.

Example Parse_not_a_url :
  exists u, NetURL.Parse "not a url" = Ok u /\ NetURL.Path u = "not a url"
            /\ NetURL.Scheme u = EmptyString /\ NetURL.Host u = EmptyString.
Proof. eexists. split; [vm_compute; reflexivity | auto]. Qed.

(** C1, as stated, fails: [url.Parse] accepts ["not a url"] as a relative
    path, so the entry is not skipped and three routes come back. *)
Lemma Resolve_not_a_url_three_routes :
  buildEndpointRoutes (listing "not a url") (parseURL "3000") (parseURL "4000") [] []
  = Ok [ route "http://localhost:3000/a" [] false;
         route "http://localhost:3000not a url" [] false;
         route "http://localhost:4000/b" [] true ]
  /\ buildEndpointRoutes (listing "not a url") (parseURL "3000") (parseURL "4000") [] []
     <> Ok [ route "http://localhost:3000/a" [] false;
             route "http://localhost:4000/b" [] true ].
Proof. split; [vm_compute; reflexivity | vm_compute; discriminate]. Qed.

(** C1, amended.  For the listing whose middle entry has a URL that
    [url.Parse] rejects, with direct target ["3000"] and connect target
    ["4000"], exactly two routes come back, ["http://localhost:3000/a"]
    (direct) then ["http://localhost:4000/b"] (connect): the rejected entry
    is skipped, no error is surfaced, and the order of the listing is
    kept. *)
Theorem Resolve_skips_rejected_entry (middle : string) (e : NetURL.Error)
        (headers connectHeaders : list string) :
  NetURL.Parse middle = Err e ->
  buildEndpointRoutes (listing middle) (parseURL "3000") (parseURL "4000")
    headers connectHeaders
  = Ok [ route "http://localhost:3000/a" headers false;
         route "http://localhost:4000/b" connectHeaders true ].
Proof.
  intros Hm.
  erewrite buildEndpointRoutes_spec; [| vm_compute; reflexivity | vm_compute; reflexivity].
  f_equal. unfold Resolve_spec, listing. simpl omap.
  unfold resolveEndpoint_spec. simpl requests.URL. rewrite Hm.
  replace (NetURL.Parse "https://example.com/a")
    with (Ok (E := NetURL.Error)
             {| NetURL.Scheme := "https"; NetURL.Opaque := EmptyString;
                NetURL.User := None; NetURL.Host := "example.com";
                NetURL.Path := "/a"; NetURL.ForceQuery := false;
                NetURL.RawQuery := EmptyString; NetURL.Fragment := EmptyString |})
    by (vm_compute; reflexivity).
  replace (NetURL.Parse "https://example.com/b")
    with (Ok (E := NetURL.Error)
             {| NetURL.Scheme := "https"; NetURL.Opaque := EmptyString;
                NetURL.User := None; NetURL.Host := "example.com";
                NetURL.Path := "/b"; NetURL.ForceQuery := false;
                NetURL.RawQuery := EmptyString; NetURL.Fragment := EmptyString |})
    by (vm_compute; reflexivity).
  reflexivity.
Qed.

Lemma Resolve_skips_rejected_entry_witness :
  NetURL.Parse "http://not a url" = Err (NetURL.InvalidHostError " ")
  /\ buildEndpointRoutes (listing "http://not a url") (parseURL "3000") (parseURL "4000")
       ["X-Env: dev"] []
     = Ok [ route "http://localhost:3000/a" ["X-Env: dev"] false;
            route "http://localhost:4000/b" [] true ].
Proof.
  split; [vm_compute; reflexivity |].
  apply (Resolve_skips_rejected_entry "http://not a url" (NetURL.InvalidHostError " ")).
  vm_compute; reflexivity.
Defined.




(** C4, as stated, fails: ["a b"] is completed to ["http://a b"], which
    [url.Parse] rejects (a space in the host). *)
Lemma parseURL_result_malformed :
  parseURL "a b" = "http://a b"
  /\ NetURL.Parse (parseURL "a b") = Err (NetURL.InvalidHostError " ")
  /\ hasSchemeAndHost (parseURL "a b") = false.
Proof. repeat split; vm_compute; reflexivity. Qed.

(** The empty string is completed to a scheme without a host. *)
Example parseURL_empty_no_host :
  parseURL EmptyString = "http://" /\ hasSchemeAndHost (parseURL EmptyString) = false.
Proof. split; vm_compute; reflexivity. Qed.

(** C4, amended.  [parseURL] is total, and for every input string its
    result opens with [http://] or [https://]; whenever [url.Parse] accepts
    the result, the scheme it reads is [http] or [https]. *)
Theorem parseURL_scheme_qualified (s : string) :
  (GoStrings.HasPrefix (parseURL s) "http://" = true
   \/ GoStrings.HasPrefix (parseURL s) "https://" = true)
  /\ match NetURL.Parse (parseURL s) with
     | Ok u => NetURL.Scheme u = "http" \/ NetURL.Scheme u = "https"
     | Err _ => True
     end.
Proof.
  split.
  - destruct (parseURL_scheme_prefix s) as [[r ->] | [r ->]];
      [left | right]; apply HasPrefix_append.
  - destruct (NetURL.Parse (parseURL s)) eqn:H; [|exact I].
    apply (Parse_parseURL_Scheme _ _ H).
Qed.

(** C7. Composing the base ["http://localhost:3000/"] or the base
    ["http://localhost:3000"] with a destination whose path is ["/v1/hook"]
    gives ["http://localhost:3000/v1/hook"] both times: the trailing slash
    of the base makes no difference and the separator is not doubled. *)
Theorem buildForwardURL_trailing_slash (destination : NetURL.URL) :
  NetURL.Path destination = "/v1/hook" ->
  buildForwardURL "http://localhost:3000/" destination = Ok "http://localhost:3000/v1/hook"
  /\ buildForwardURL "http://localhost:3000" destination = Ok "http://localhost:3000/v1/hook".
Proof.
  intros Hp. split.
  - erewrite buildForwardURL_Compose by (vm_compute; reflexivity).
    rewrite Hp. reflexivity.
  - erewrite buildForwardURL_Compose by (vm_compute; reflexivity).
    rewrite Hp. reflexivity.
Qed.

Lemma buildForwardURL_trailing_slash_witness :
  buildForwardURL "http://localhost:3000/" (hookURL EmptyString EmptyString)
  = Ok "http://localhost:3000/v1/hook"
  /\ buildForwardURL "http://localhost:3000" (hookURL EmptyString EmptyString)
     = Ok "http://localhost:3000/v1/hook".
Proof.
  apply (buildForwardURL_trailing_slash (hookURL EmptyString EmptyString)).
  reflexivity.
Defined.

(** C10. For every base that [url.Parse] accepts, the delivery URL is made
    of the base and the path of the destination alone: two destinations with
    the same path, whatever their query strings and fragments, give the same
    delivery URL, in which nothing of the destination but its path
    appears. *)
Theorem buildForwardURL_path_only (base : string) (f destination destination' : NetURL.URL) :
  NetURL.Parse base = Ok f ->
  NetURL.Path destination = NetURL.Path destination' ->
  buildForwardURL base destination = buildForwardURL base destination'
  /\ buildForwardURL base destination
     = Ok (NetURL.Scheme f +:+ "://" +:+ NetURL.Host f
           +:+ GoStrings.TrimSuffix (NetURL.Path f) "/"
           +:+ NetURL.Path destination).
Proof.
  intros Hf Hp.
  rewrite !(buildForwardURL_Compose _ _ _ Hf), Hp. split; reflexivity.
Qed.

Lemma buildForwardURL_path_only_witness :
  buildForwardURL "http://localhost:3000/webhooks/" (hookURL "x=1" "top")
  = buildForwardURL "http://localhost:3000/webhooks/" (hookURL EmptyString EmptyString)
  /\ buildForwardURL "http://localhost:3000/webhooks/" (hookURL "x=1" "top")
     = Ok "http://localhost:3000/webhooks/v1/hook".
Proof.
  apply (buildForwardURL_path_only "http://localhost:3000/webhooks/"
           {| NetURL.Scheme := "http"; NetURL.Opaque := EmptyString;
              NetURL.User := None; NetURL.Host := "localhost:3000";
              NetURL.Path := "/webhooks/"; NetURL.ForceQuery := false;
              NetURL.RawQuery := EmptyString; NetURL.Fragment := EmptyString |}
           (hookURL "x=1" "top") (hookURL EmptyString EmptyString)).
  - vm_compute; reflexivity.
  - reflexivity.
Defined.

(** The same on the strings of the listing: a query string, with or without
    a fragment after it, added to the endpoint's URL leaves the delivery URL
    as it was. *)
Corollary buildForwardURL_query_discarded (base rawURL q : string)
          (f destination destination' : NetURL.URL) :
  NetURL.Parse base = Ok f ->
  GoStrings.Index rawURL "?" = None ->
  GoStrings.Index rawURL "#" = None ->
  NetURL.Parse rawURL = Ok destination ->
  NetURL.Parse (rawURL +:+ String "?" q) = Ok destination' ->
  buildForwardURL base destination' = buildForwardURL base destination.
Proof.
  intros Hf Hq Hh Hd Hd'.
  destruct (Parse_query _ _ _ _ Hq Hh Hd Hd') as (_ & _ & Hp).
  now rewrite !(buildForwardURL_Compose _ _ _ Hf), Hp.
Qed.

Corollary buildForwardURL_fragment_discarded (base rawURL frag : string)
          (f destination destination' : NetURL.URL) :
  NetURL.Parse base = Ok f ->
  GoStrings.Index rawURL "#" = None ->
  NetURL.Parse rawURL = Ok destination ->
  NetURL.Parse (rawURL +:+ String "#" frag) = Ok destination' ->
  buildForwardURL base destination' = buildForwardURL base destination.
Proof.
  intros Hf Hh Hd Hd'.
  destruct (Parse_fragment _ _ _ _ Hh Hd Hd') as (_ & _ & Hp).
  now rewrite !(buildForwardURL_Compose _ _ _ Hf), Hp.
Qed.

Example Resolve_query_fragment :
  buildEndpointRoutes
    {| requests.Data := [endpoint "https://example.com/v1/hook?x=1#top" EmptyString] |}
    (parseURL "localhost:3000/webhooks") (parseURL EmptyString) [] []
  = Ok [ route "http://localhost:3000/webhooks/v1/hook" [] false ].
Proof. vm_compute. reflexivity. Qed.

(** Resolution of an empty listing is an empty list of routes. *)
Example Resolve_empty (direct connect : string) (headers connectHeaders : list string) :
  buildEndpointRoutes {| requests.Data := [] |} direct connect headers connectHeaders
  = Ok [].
Proof. reflexivity. Qed.

(** ** [runListenCmd] *)

Section CommandFacts.

Lemma relayStarted_app (t t' : list Effect) :
  relayStarted (t ++ t')%list
  = match relayStarted t with
    | Some cfg => Some cfg
    | None => relayStarted t'
    end.
Proof.
  induction t as [|[| | |cfg] t IH]; simpl; auto.
Qed.

Lemma relayStarted_eventWarnings (evs : list string) :
  relayStarted (eventWarnings evs) = None.
Proof.
  induction evs as [|e evs IH]; cbn [eventWarnings]; [reflexivity|].
  destruct (validEvents !! e); cbn [relayStarted]; exact IH.
Qed.

Lemma relayStarted_check (b : bool) :
  relayStarted (if b then [CheckLatestVersion] else []) = None.
Proof. destruct b; reflexivity. Qed.

(** Before the relay is started, nothing has started it. *)
Lemma relayStarted_before (b : bool) (evs : list string) :
  relayStarted ((if b then [CheckLatestVersion] else []) ++ eventWarnings evs)%list = None.
Proof.
  now rewrite relayStarted_app, relayStarted_check, relayStarted_eventWarnings.
Qed.

Lemma relayStarted_start (b : bool) (evs : list string) (cfg : proxy.Config) :
  relayStarted (((if b then [CheckLatestVersion] else []) ++ eventWarnings evs)
                ++ [ProxyRun cfg])%list = Some cfg.
Proof. now rewrite relayStarted_app, relayStarted_before. Qed.

Lemma relayStarted_fatal (b : bool) (evs : list string) (msg : string) :
  relayStarted (((if b then [CheckLatestVersion] else []) ++ eventWarnings evs)
                ++ [LogFatalf msg])%list = None.
Proof. now rewrite relayStarted_app, relayStarted_before. Qed.


(** With no connect target, a connect-scoped endpoint is sent to a URL
    without a host. *)
Lemma buildForwardURL_no_connect_target (u : NetURL.URL) :
  buildForwardURL (parseURL EmptyString) u = Ok ("http://" +:+ NetURL.Path u).
Proof.
  erewrite buildForwardURL_Compose by (vm_compute; reflexivity). reflexivity.
Qed.

End CommandFacts.

(** C2 fails on the code.  [stripe listen --use-configured-webhooks
    --forward-to 3000], on an account whose one endpoint belongs to a Connect
    application: the relay is started with the route
    [http:///b] for it, not with [http://localhost:3000/b]; the command does
    not fall back to the direct target. *)
Theorem connect_route_without_connect_target :
  option_map proxy.EndpointRoutes
    (relayStarted
       (fst (runListenCmd
               (accountWith [endpoint "https://example.com/b" "ca_123"])
               (configuredWebhooks false (withForward defaultFlags "3000" EmptyString)))))
  = Some [ route "http:///b" [] true ].
Proof. vm_compute. reflexivity. Qed.

(** C5, as stated, fails: with [--print-secret] the command prints the
    secret and returns [nil], whatever the forwarding flags are. *)
Lemma print_secret_skips_validation :
  runListenCmd (accountWith [])
    (configuredWebhooks true (withForward defaultFlags "/hooks" EmptyString))
  = ([Printf ("whsec_abc" +:+ String newline EmptyString)], Return None).
Proof. vm_compute. reflexivity. Qed.

(** C5, amended.  When [--use-configured-webhooks] is given and the
    forwarding URL starts with [/], or the account's listing is empty, or no
    forwarding URL was given, the relay is never started; and unless
    [--print-secret] was given too, the command returns an error. *)
Theorem configured_webhooks_validation (w : World) (lc : listenCmd) :
  useConfiguredWebhooks lc = true ->
  (GoStrings.HasPrefix (forwardURL lc) "/" = true
   \/ (forall key, requests.Data (getEndpointsFromAPI w lc key) = [])
   \/ forwardURL lc = EmptyString) ->
  relayStarted (fst (runListenCmd w lc)) = None
  /\ (onlyPrintSecret lc = false ->
      exists err, snd (runListenCmd w lc) = Return (Some err)).
Proof.
  intros Hmode Hcase. unfold runListenCmd. rewrite Hmode.
  set (b := negb (printJSON lc) && negb (onlyPrintSecret lc) && negb (skipUpdate lc)).
  destruct (GetDeviceName w) as [deviceName|err];
    [| split; [apply relayStarted_check | eauto]].
  destruct (GetAPIKey w (livemode lc)) as [key|err];
    [| split; [apply relayStarted_check | eauto]].
  destruct (onlyPrintSecret lc).
  { split; [|discriminate].
    destruct (GetSessionSecret w deviceName key (apiBaseURL lc)); simpl fst.
    - now rewrite relayStarted_app, relayStarted_check.
    - apply relayStarted_check. }
  destruct (forwardURL lc) as [|c rest] eqn:Hf.
  { simpl. split; [apply relayStarted_before | eauto]. }
  cbn [String.length Nat.ltb Nat.leb andb].
  destruct (GoStrings.HasPrefix (String c rest) "/") eqn:Hrel.
  { simpl. split; [apply relayStarted_before | eauto]. }
  destruct (GoStrings.HasPrefix (forwardConnectURL lc) "/").
  { simpl. split; [apply relayStarted_before | eauto]. }
  destruct Hcase as [Hcase | [Hcase | Hcase]]; [discriminate | | discriminate].
  rewrite Hcase. simpl. split; [apply relayStarted_before | eauto].
Qed.

Lemma configured_webhooks_validation_witness :
  relayStarted
    (fst (runListenCmd (accountWith [])
            (configuredWebhooks false (withForward defaultFlags "/hooks" EmptyString))))
  = None
  /\ exists err,
      snd (runListenCmd (accountWith [])
             (configuredWebhooks false (withForward defaultFlags "/hooks" EmptyString)))
      = Return (Some err).
Proof.
  destruct (configured_webhooks_validation (accountWith [])
              (configuredWebhooks false (withForward defaultFlags "/hooks" EmptyString)))
    as [Hnone Herr]; [reflexivity | left; reflexivity |].
  split; [exact Hnone | apply Herr; reflexivity].
Defined.


(** The example of the specification. *)
Example eventWarnings_example :
  eventWarnings ["*"; "charge.succeeded"; "not.a.real.event"]
  = [Printf (eventWarning "not.a.real.event")]
  /\ eventWarnings ["*"] = [].
Proof. split; vm_compute; reflexivity. Qed.

(** * Further properties of the normalizer *)

Section IntegerShape.

Lemma Atoi_loop_all_digits (s : string) : forall (n v : Z),
  Strconv.Atoi_loop s n = Ok v -> NetURL.all_digits s = true.
Proof.
  induction s as [|c s IH]; intros n v H; [reflexivity|].
  cbn [NetURL.all_digits]. destruct (is_digit c) eqn:Hc.
  - rewrite (Atoi_loop_digit _ _ _ Hc) in H. exact (IH _ _ H).
  - rewrite (Atoi_loop_not_digit _ _ _ Hc) in H. discriminate.
Qed.

Lemma ParseUint_loop_all_digits (s : string) : forall (n v : Z),
  Strconv.ParseUint_loop s n = Ok v -> NetURL.all_digits s = true.
Proof.
  induction s as [|c s IH]; intros n v H; [reflexivity|].
  cbn [Strconv.ParseUint_loop NetURL.all_digits] in *.
  destruct (is_digit c); [|discriminate]. cbv zeta in H.
  destruct (_ <=? n)%Z; [discriminate|].
  destruct (_ || _); [discriminate|]. exact (IH _ _ H).
Qed.

(** What [Atoi] accepts is a string of decimal digits after at most one
    sign. *)
Lemma Atoi_shape (s : string) (v : Z) :
  Strconv.Atoi s = Ok v ->
  exists body, NetURL.all_digits body = true
               /\ (s = body \/ s = String "+" body \/ s = String "-" body).
Proof.
  unfold Strconv.Atoi.
  destruct ((0 <? String.length s)%nat && (String.length s <? 19)%nat).
  - destruct s as [|c s]; [discriminate|].
    destruct (Ascii.eqb c "-") eqn:Hm; [apply Ascii.eqb_eq in Hm; subst c|];
      [|destruct (Ascii.eqb c "+") eqn:Hp; [apply Ascii.eqb_eq in Hp; subst c|]];
      cbn [orb andb].
    + destruct (String.length s <? 1)%nat; [discriminate|].
      destruct (Strconv.Atoi_loop s 0) eqn:Hl; [|discriminate].
      intros _. exists s. split; [exact (Atoi_loop_all_digits _ _ _ Hl) | auto].
    + destruct (String.length s <? 1)%nat; [discriminate|].
      destruct (Strconv.Atoi_loop s 0) eqn:Hl; [|discriminate].
      intros _. exists s. split; [exact (Atoi_loop_all_digits _ _ _ Hl) | auto].
    + destruct (Strconv.Atoi_loop (String c s) 0) eqn:Hl; [|discriminate].
      intros _. exists (String c s).
      split; [exact (Atoi_loop_all_digits _ _ _ Hl) | auto].
  - unfold Strconv.ParseInt10. destruct s as [|c s]; [discriminate|].
    destruct (Ascii.eqb c "+") eqn:Hp; [apply Ascii.eqb_eq in Hp; subst c|];
      [|destruct (Ascii.eqb c "-") eqn:Hm; [apply Ascii.eqb_eq in Hm; subst c|]].
    + unfold Strconv.ParseUint10. destruct s as [|d s]; [discriminate|].
      destruct (Strconv.ParseUint_loop (String d s) 0) eqn:Hl; [|discriminate].
      intros _. exists (String d s).
      split; [exact (ParseUint_loop_all_digits _ _ _ Hl) | auto].
    + unfold Strconv.ParseUint10. destruct s as [|d s]; [discriminate|].
      destruct (Strconv.ParseUint_loop (String d s) 0) eqn:Hl; [|discriminate].
      intros _. exists (String d s).
      split; [exact (ParseUint_loop_all_digits _ _ _ Hl) | auto].
    + unfold Strconv.ParseUint10.
      destruct (Strconv.ParseUint_loop (String c s) 0) eqn:Hl; [|discriminate].
      intros _. exists (String c s).
      split; [exact (ParseUint_loop_all_digits _ _ _ Hl) | auto].
Qed.

Lemma all_digits_bytes (s : string) (c : ascii) :
  NetURL.all_digits s = true -> In c (bytes s) -> is_digit c = true.
Proof.
  induction s as [|d s IH]; intros H Hin; [destruct Hin|].
  cbn [NetURL.all_digits] in H. apply andb_true_iff in H as [Hd Hs].
  destruct Hin as [-> | Hin]; auto.
Qed.

(** A string with a byte that is neither a digit nor a sign is no
    integer. *)
Lemma Atoi_other_byte (s : string) (c : ascii) :
  In c (bytes s) -> is_digit c = false ->
  Ascii.eqb c "+" = false -> Ascii.eqb c "-" = false ->
  is_ok (Strconv.Atoi s) = false.
Proof.
  intros Hin Hd Hp Hm. destruct (Strconv.Atoi s) as [v|e] eqn:Ha; [|reflexivity].
  exfalso. apply Atoi_shape in Ha as (body & Hb & [-> | [-> | ->]]).
  - rewrite (all_digits_bytes _ _ Hb Hin) in Hd. discriminate.
  - destruct Hin as [<- | Hin]; [discriminate Hp|].
    rewrite (all_digits_bytes _ _ Hb Hin) in Hd. discriminate.
  - destruct Hin as [<- | Hin]; [discriminate Hm|].
    rewrite (all_digits_bytes _ _ Hb Hin) in Hd. discriminate.
Qed.

End IntegerShape.

(** X3. An input that holds a byte that is neither a decimal digit nor a
    sign, that does not start with [/] and that has neither scheme in front
    gets [http://] put in front of it and is otherwise unchanged: a bare
    host, a [host:port], or a port followed by a path. *)
Theorem parseURL_bare_host (s : string) (c : ascii) :
  In c (bytes s) -> is_digit c = false ->
  Ascii.eqb c "+" = false -> Ascii.eqb c "-" = false ->
  GoStrings.HasPrefix s "/" = false ->
  GoStrings.HasPrefix s "http://" = false ->
  GoStrings.HasPrefix s "https://" = false ->
  parseURL s = "http://" +:+ s.
Proof.
  intros Hin Hd Hp Hm Hrel Hh Hs. unfold parseURL.
  rewrite (Atoi_other_byte _ _ Hin Hd Hp Hm), Hrel, Hh, Hs. reflexivity.
Qed.

Lemma parseURL_bare_host_witness :
  parseURL "3000/events" = "http://" +:+ "3000/events".
Proof.
  apply (parseURL_bare_host "3000/events" "/"); try reflexivity.
  simpl. auto 10.
Defined.

(** X4. Every non-empty string of fewer than 19 decimal digits is taken for
    a port: it is completed to [http://localhost:] followed by the
    digits. *)
Theorem parseURL_port (s : string) :
  NetURL.all_digits s = true ->
  0 < String.length s < 19 ->
  parseURL s = "http://localhost:" +:+ s.
Proof.
  intros Hs Hlen. destruct (Atoi_digits _ Hs Hlen) as [v Hv].
  unfold parseURL. rewrite Hv. reflexivity.
Qed.

Lemma parseURL_port_witness : parseURL "8080" = "http://localhost:" +:+ "8080".
Proof. apply (parseURL_port "8080"); [reflexivity | simpl; lia]. Defined.

(** * Further properties of the composition of delivery URLs *)

Section DigitFacts.

Variable s : string.
Hypothesis Hs : NetURL.all_digits s = true.

Lemma digits_Index (c : ascii) :
  is_digit c = false -> GoStrings.Index s (String c EmptyString) = None.
Proof.
  intros Hc. induction s as [|d s' IH]; [reflexivity|].
  cbn [NetURL.all_digits] in Hs. apply andb_true_iff in Hs as [Hd Hs'].
  rewrite Index_byte_cons. destruct (Ascii.eqb d c) eqn:E.
  - apply Ascii.eqb_eq in E. subst d. rewrite Hd in Hc. discriminate.
  - now rewrite IH.
Qed.

Lemma digits_LastIndexByte (c : ascii) :
  is_digit c = false -> GoStrings.LastIndexByte s c = None.
Proof.
  intros Hc. induction s as [|d s' IH]; [reflexivity|].
  cbn [NetURL.all_digits] in Hs. apply andb_true_iff in Hs as [Hd Hs'].
  cbn [GoStrings.LastIndexByte]. rewrite IH by exact Hs'.
  destruct (Ascii.eqb d c) eqn:E; [|reflexivity].
  apply Ascii.eqb_eq in E. subst d. rewrite Hd in Hc. discriminate.
Qed.

Lemma digits_no_control_byte : NetURL.stringContainsCTLByte s = false.
Proof.
  induction s as [|d s' IH]; [reflexivity|].
  cbn [NetURL.all_digits] in Hs. apply andb_true_iff in Hs as [Hd Hs'].
  cbn [NetURL.stringContainsCTLByte]. rewrite IH by exact Hs'.
  destruct d as [[] [] [] [] [] [] [] []]; try discriminate Hd; reflexivity.
Qed.

Lemma digits_unescape_check (mode : NetURL.encoding) :
  NetURL.unescape_check s mode = Ok tt.
Proof.
  induction s as [|d s' IH]; [reflexivity|].
  cbn [NetURL.all_digits] in Hs. apply andb_true_iff in Hs as [Hd Hs'].
  specialize (IH Hs').
  destruct d as [[] [] [] [] [] [] [] []]; try discriminate Hd;
    destruct mode; exact IH.
Qed.

Lemma digits_unescape_decode (mode : NetURL.encoding) :
  NetURL.unescape_decode s mode = s.
Proof.
  induction s as [|d s' IH]; [reflexivity|].
  cbn [NetURL.all_digits] in Hs. apply andb_true_iff in Hs as [Hd Hs'].
  specialize (IH Hs').
  destruct d as [[] [] [] [] [] [] [] []]; try discriminate Hd;
    cbn [NetURL.unescape_decode]; now rewrite IH.
Qed.

End DigitFacts.

Lemma LastIndexByte_append_none (p s : string) (c : ascii) :
  GoStrings.LastIndexByte s c = None ->
  GoStrings.LastIndexByte (p +:+ s) c = GoStrings.LastIndexByte p c.
Proof.
  intros H. induction p as [|d p IH]; simpl; [exact H | now rewrite IH].
Qed.

(** What [Parse] reads from the completed port: the scheme [http], the host
    [localhost] with the port, and no path. *)
Lemma Parse_port (s : string) :
  NetURL.all_digits s = true ->
  NetURL.Parse ("http://localhost:" +:+ s)
  = Ok {| NetURL.Scheme := "http"; NetURL.Opaque := EmptyString;
          NetURL.User := None; NetURL.Host := "localhost:" +:+ s;
          NetURL.Path := EmptyString; NetURL.ForceQuery := false;
          NetURL.RawQuery := EmptyString; NetURL.Fragment := EmptyString |}.
Proof.
  intros Hs.
  assert (Hidx : forall (p : string) (c : ascii),
             GoStrings.Index p (String c EmptyString) = None ->
             is_digit c = false ->
             GoStrings.Index (p +:+ s) (String c EmptyString) = None).
  { intros p c Hp Hc. now rewrite (Index_byte_append _ _ _ Hp), (digits_Index _ Hs _ Hc). }
  unfold NetURL.Parse.
  rewrite (Cut_none "#" _ (Hidx "http://localhost:" "#"%char eq_refl eq_refl)).
  unfold NetURL.parse.
  rewrite stringContainsCTLByte_append, (digits_no_control_byte _ Hs).
  change (NetURL.stringContainsCTLByte "http://localhost:") with false.
  cbn [orb].
  change (String.eqb ("http://localhost:" +:+ s) EmptyString) with false.
  change (String.eqb ("http://localhost:" +:+ s) "*") with false.
  cbn [andb].
  change (NetURL.getScheme ("http://localhost:" +:+ s))
    with (Ok (E := NetURL.Error) ("http", "//localhost:" +:+ s)).
  cbn [fst snd].
  rewrite (split_query_none _ (Hidx "//localhost:" "?"%char eq_refl eq_refl)).
  change (GoStrings.ToLower "http") with "http".
  unfold NetURL.parse_after_query.
  change (GoStrings.HasPrefix ("//localhost:" +:+ s) "/") with true.
  cbn [negb].
  unfold NetURL.parse_authority_path.
  change (String.eqb "http" EmptyString) with false.
  change (GoStrings.HasPrefix ("//localhost:" +:+ s) "//") with true.
  cbn [negb orb andb].
  change (GoStrings.from 2 ("//localhost:" +:+ s)) with ("localhost:" +:+ s).
  rewrite (Hidx "localhost:" "/"%char eq_refl eq_refl).
  unfold NetURL.parseAuthority.
  rewrite (LastIndexByte_append_none "localhost:" s "@"
             (digits_LastIndexByte _ Hs "@"%char eq_refl)).
  change (GoStrings.LastIndexByte "localhost:" "@") with (@None nat).
  unfold NetURL.parseHost.
  change (GoStrings.HasPrefix ("localhost:" +:+ s) "[") with false.
  rewrite (LastIndexByte_append_none "localhost:" s ":"
             (digits_LastIndexByte _ Hs ":"%char eq_refl)).
  change (GoStrings.LastIndexByte "localhost:" ":") with (Some 9).
  cbv beta iota zeta.
  change (GoStrings.from 9 ("localhost:" +:+ s)) with (String ":" s).
  cbn [NetURL.validOptionalPort]. rewrite Hs.
  change (Ascii.eqb ":" ":") with true. cbn [andb negb].
  unfold NetURL.unescape.
  change (NetURL.unescape_check ("localhost:" +:+ s) NetURL.encodeHost)
    with (NetURL.unescape_check s NetURL.encodeHost).
  rewrite (digits_unescape_check _ Hs).
  change (NetURL.unescape_decode ("localhost:" +:+ s) NetURL.encodeHost)
    with ("localhost:" +:+ NetURL.unescape_decode s NetURL.encodeHost).
  rewrite (digits_unescape_decode _ Hs).
  reflexivity.
Qed.

(** X5. Forwarding to a port: for every non-empty string of fewer than 19
    decimal digits given as the forwarding target, the delivery URL of a
    destination is [http://localhost:], the digits, and the path of the
    destination; composition never ends in [log.Fatalf]. *)
Theorem buildForwardURL_port (s : string) (destination : NetURL.URL) :
  NetURL.all_digits s = true ->
  0 < String.length s < 19 ->
  buildForwardURL (parseURL s) destination
  = Ok ("http://localhost:" +:+ s +:+ NetURL.Path destination).
Proof.
  intros Hs Hlen. destruct (Atoi_digits _ Hs Hlen) as [v Hv].
  replace (parseURL s) with ("http://localhost:" +:+ s)
    by (unfold parseURL; rewrite Hv; reflexivity).
  rewrite (buildForwardURL_Compose _ _ _ (Parse_port _ Hs)).
  unfold Compose_spec. cbn [NetURL.Scheme NetURL.Host NetURL.Path].
  change (GoStrings.TrimSuffix EmptyString "/") with EmptyString.
  reflexivity.
Qed.

Lemma buildForwardURL_port_witness :
  buildForwardURL (parseURL "4242") (hookURL "x=1" "top")
  = Ok ("http://localhost:" +:+ "4242" +:+ "/v1/hook").
Proof.
  apply (buildForwardURL_port "4242" (hookURL "x=1" "top")); [reflexivity | simpl; lia].
Defined.

Lemma Parse_suffix (sep : ascii) (rawURL x : string) (u u' : NetURL.URL) :
  sep = "?"%char \/ sep = "#"%char ->
  GoStrings.Index rawURL "?" = None ->
  GoStrings.Index rawURL "#" = None ->
  NetURL.Parse rawURL = Ok u ->
  NetURL.Parse (rawURL +:+ String sep x) = Ok u' ->
  NetURL.Scheme u' = NetURL.Scheme u /\ NetURL.Host u' = NetURL.Host u
  /\ NetURL.Path u' = NetURL.Path u.
Proof.
  intros [-> | ->] Hq Hh Hu Hu'.
  - exact (Parse_query _ _ _ _ Hq Hh Hu Hu').
  - exact (Parse_fragment _ _ _ _ Hh Hu Hu').
Qed.

(** X6. A query string or a fragment on the forwarding target is dropped:
    for a target without [?] and [#] that [url.Parse] accepts, the same
    target followed by [?] or [#] and anything, when [url.Parse] accepts it
    too, gives every destination the same delivery URL. *)
Theorem buildForwardURL_base_suffix_discarded
        (sep : ascii) (base x : string) (f f' destination : NetURL.URL) :
  sep = "?"%char \/ sep = "#"%char ->
  GoStrings.Index base "?" = None ->
  GoStrings.Index base "#" = None ->
  NetURL.Parse base = Ok f ->
  NetURL.Parse (base +:+ String sep x) = Ok f' ->
  buildForwardURL (base +:+ String sep x) destination = buildForwardURL base destination.
Proof.
  intros Hsep Hq Hh Hf Hf'.
  destruct (Parse_suffix _ _ _ _ _ Hsep Hq Hh Hf Hf') as (Hs & Hho & Hp).
  rewrite (buildForwardURL_Compose _ _ _ Hf), (buildForwardURL_Compose _ _ _ Hf').
  unfold Compose_spec. now rewrite Hs, Hho, Hp.
Qed.

Lemma buildForwardURL_base_suffix_discarded_witness :
  buildForwardURL ("http://localhost:3000/in" +:+ String "?" "debug=1#x")
    (hookURL EmptyString EmptyString)
  = buildForwardURL "http://localhost:3000/in" (hookURL EmptyString EmptyString).
Proof.
  eapply (buildForwardURL_base_suffix_discarded "?" "http://localhost:3000/in" "debug=1#x").
  - left. reflexivity.
  - reflexivity.
  - reflexivity.
  - vm_compute. reflexivity.
  - vm_compute. reflexivity.
Defined.

(** X7. The same for the URL of an endpoint: when [url.Parse] accepts an
    endpoint URL without [?] and [#], and accepts it followed by [?] or [#]
    and anything, both give the same delivery URL under every forwarding
    target that parses. *)
Theorem buildForwardURL_destination_suffix_discarded
        (sep : ascii) (base rawURL x : string) (f destination destination' : NetURL.URL) :
  sep = "?"%char \/ sep = "#"%char ->
  NetURL.Parse base = Ok f ->
  GoStrings.Index rawURL "?" = None ->
  GoStrings.Index rawURL "#" = None ->
  NetURL.Parse rawURL = Ok destination ->
  NetURL.Parse (rawURL +:+ String sep x) = Ok destination' ->
  buildForwardURL base destination' = buildForwardURL base destination.
Proof.
  intros Hsep Hf Hq Hh Hd Hd'.
  destruct (Parse_suffix _ _ _ _ _ Hsep Hq Hh Hd Hd') as (_ & _ & Hp).
  now rewrite !(buildForwardURL_Compose _ _ _ Hf), Hp.
Qed.

Lemma buildForwardURL_destination_suffix_discarded_witness :
  buildForwardURL "http://localhost:3000" (hookURL EmptyString "top")
  = buildForwardURL "http://localhost:3000" (hookURL EmptyString EmptyString).
Proof.
  eapply (buildForwardURL_destination_suffix_discarded
            "#" "http://localhost:3000" "https://example.com/v1/hook" "top").
  - right. reflexivity.
  - vm_compute. reflexivity.
  - reflexivity.
  - reflexivity.
  - vm_compute. reflexivity.
  - vm_compute. reflexivity.
Defined.

Lemma TrimSuffix_append_slash (p : string) :
  GoStrings.TrimSuffix (p +:+ "/") "/" = p.
Proof.
  unfold GoStrings.TrimSuffix.
  rewrite (HasSuffix_byte_append "/" p "/" EmptyString).
  change (GoStrings.HasSuffix "/" "/") with true. cbv iota.
  rewrite length_append. cbn [String.length].
  replace (String.length p + 1 - 1) with (String.length p + 0) by lia.
  rewrite upto_append. cbn [GoStrings.upto]. apply append_nil_r.
Qed.

(** X8. Exactly one trailing slash of the target's path is removed: when the
    path of the parsed target is [p] followed by [/], the delivery URL is
    scheme, host, [p] and the destination's path, also when [p] itself ends
    in a slash. *)
Theorem buildForwardURL_trims_one_slash
        (base p : string) (f destination : NetURL.URL) :
  NetURL.Parse base = Ok f ->
  NetURL.Path f = p +:+ "/" ->
  buildForwardURL base destination
  = Ok (NetURL.Scheme f +:+ "://" +:+ NetURL.Host f +:+ p
        +:+ NetURL.Path destination).
Proof.
  intros Hf Hp. rewrite (buildForwardURL_Compose _ _ _ Hf).
  unfold Compose_spec. now rewrite Hp, TrimSuffix_append_slash.
Qed.

Lemma buildForwardURL_trims_one_slash_witness :
  buildForwardURL "http://localhost:3000/hooks//" (hookURL EmptyString EmptyString)
  = Ok "http://localhost:3000/hooks//v1/hook".
Proof.
  apply (buildForwardURL_trims_one_slash "http://localhost:3000/hooks//" "/hooks/"
           {| NetURL.Scheme := "http"; NetURL.Opaque := EmptyString;
              NetURL.User := None; NetURL.Host := "localhost:3000";
              NetURL.Path := "/hooks//"; NetURL.ForceQuery := false;
              NetURL.RawQuery := EmptyString; NetURL.Fragment := EmptyString |}).
  - vm_compute. reflexivity.
  - reflexivity.
Defined.

(** * Further properties of route resolution *)

Section LoopFacts.

Variables (forwardURL forwardConnectURL : string).
Variables (forwardHeaders forwardConnectHeaders : list string).

Let loop data acc :=
  buildEndpointRoutes_loop data forwardURL forwardConnectURL
    forwardHeaders forwardConnectHeaders acc.

(** The routes found so far are only ever extended. *)
Lemma buildEndpointRoutes_loop_acc data : forall acc,
  loop data acc
  = match loop data [] with
    | Ok routes => Ok (acc ++ routes)%list
    | Err e => Err e
    end.
Proof.
  unfold loop. induction data as [|e data IH]; intros acc;
    cbn [buildEndpointRoutes_loop].
  - now rewrite app_nil_r.
  - destruct (NetURL.Parse (requests.URL e)) as [u|err]; [|apply IH].
    destruct (String.eqb (requests.Application e) EmptyString).
    + destruct (buildForwardURL forwardURL u) as [url|fatal]; [|reflexivity].
      rewrite IH. rewrite (IH ([] ++ _)%list).
      destruct (buildEndpointRoutes_loop data _ _ _ _ []); [|reflexivity].
      now rewrite <- app_assoc.
    + destruct (buildForwardURL forwardConnectURL u) as [url|fatal]; [|reflexivity].
      rewrite IH. rewrite (IH ([] ++ _)%list).
      destruct (buildEndpointRoutes_loop data _ _ _ _ []); [|reflexivity].
      now rewrite <- app_assoc.
Qed.

Lemma buildEndpointRoutes_loop_app data data' : forall acc,
  loop (data ++ data')%list acc
  = match loop data acc with
    | Ok routes => loop data' routes
    | Err e => Err e
    end.
Proof.
  unfold loop. induction data as [|e data IH]; intros acc;
    cbn [buildEndpointRoutes_loop app]; [reflexivity|].
  destruct (NetURL.Parse (requests.URL e)) as [u|err]; [|apply IH].
  destruct (String.eqb (requests.Application e) EmptyString).
  - destruct (buildForwardURL forwardURL u); [apply IH | reflexivity].
  - destruct (buildForwardURL forwardConnectURL u); [apply IH | reflexivity].
Qed.

End LoopFacts.

(** X9. Resolution goes through the listing from left to right: the routes
    of two listings put one after the other are the routes of the first
    followed by those of the second, and a fatal error of the first comes
    before one of the second. *)
Theorem buildEndpointRoutes_app
        (data data' : list requests.WebhookEndpoint)
        (forwardURL forwardConnectURL : string)
        (forwardHeaders forwardConnectHeaders : list string) :
  buildEndpointRoutes {| requests.Data := (data ++ data')%list |}
    forwardURL forwardConnectURL forwardHeaders forwardConnectHeaders
  = match buildEndpointRoutes {| requests.Data := data |}
            forwardURL forwardConnectURL forwardHeaders forwardConnectHeaders with
    | Err e => Err e
    | Ok routes =>
        match buildEndpointRoutes {| requests.Data := data' |}
                forwardURL forwardConnectURL forwardHeaders forwardConnectHeaders with
        | Ok routes' => Ok (routes ++ routes')%list
        | Err e => Err e
        end
    end.
Proof.
  unfold buildEndpointRoutes. cbn [requests.Data].
  rewrite buildEndpointRoutes_loop_app.
  destruct (buildEndpointRoutes_loop data _ _ _ _ []) as [routes|e]; [|reflexivity].
  apply buildEndpointRoutes_loop_acc.
Qed.

(** X10. Resolution ends in [log.Fatalf] exactly when the listing has an
    endpoint whose URL [url.Parse] accepts and whose forwarding target (the
    direct one for an endpoint without application, the connect one
    otherwise) [url.Parse] rejects.  An endpoint whose own URL is rejected
    never causes it, and a target that no accepted endpoint uses does not
    matter. *)
Theorem buildEndpointRoutes_fatal_iff
        (endpoints : requests.WebhookEndpointList)
        (forwardURL forwardConnectURL : string)
        (forwardHeaders forwardConnectHeaders : list string) :
  is_ok (buildEndpointRoutes endpoints forwardURL forwardConnectURL
           forwardHeaders forwardConnectHeaders)
  = negb (existsb
            (fun e =>
               is_ok (NetURL.Parse (requests.URL e))
               && negb (is_ok (NetURL.Parse
                                 (if String.eqb (requests.Application e) EmptyString
                                  then forwardURL else forwardConnectURL))))
            (requests.Data endpoints)).
Proof.
  unfold buildEndpointRoutes.
  induction (requests.Data endpoints) as [|e data IH]; [reflexivity|].
  cbn [buildEndpointRoutes_loop existsb].
  destruct (NetURL.Parse (requests.URL e)) as [u|err]; cbn [is_ok andb orb];
    [|exact IH].
  unfold buildForwardURL.
  destruct (String.eqb (requests.Application e) EmptyString).
  - destruct (NetURL.Parse forwardURL); cbn [is_ok negb orb]; [|reflexivity].
    rewrite buildEndpointRoutes_loop_acc.
    destruct (buildEndpointRoutes_loop data _ _ _ _ []); exact IH.
  - destruct (NetURL.Parse forwardConnectURL); cbn [is_ok negb orb]; [|reflexivity].
    rewrite buildEndpointRoutes_loop_acc.
    destruct (buildEndpointRoutes_loop data _ _ _ _ []); exact IH.
Qed.

(** X11. Whatever the two targets are, when resolution returns, its routes
    are those of the endpoints whose URL [url.Parse] accepts, in listing
    order, and each carries the headers of its class: the connect headers
    and the connect mark for an endpoint with an application, the direct
    headers otherwise, with the endpoint's event types. *)
Theorem buildEndpointRoutes_classes
        (endpoints : requests.WebhookEndpointList)
        (forwardURL forwardConnectURL : string)
        (forwardHeaders forwardConnectHeaders : list string)
        (routes : list proxy.EndpointRoute) :
  buildEndpointRoutes endpoints forwardURL forwardConnectURL
    forwardHeaders forwardConnectHeaders = Ok routes ->
  map (fun r => (proxy.Connect r, proxy.ForwardHeaders r, proxy.EventTypes r)) routes
  = map (fun e =>
           (negb (String.eqb (requests.Application e) EmptyString),
            if String.eqb (requests.Application e) EmptyString
            then forwardHeaders else forwardConnectHeaders,
            requests.EnabledEvents e))
        (List.filter (fun e => is_ok (NetURL.Parse (requests.URL e)))
                     (requests.Data endpoints)).
Proof.
  unfold buildEndpointRoutes. revert routes.
  induction (requests.Data endpoints) as [|e data IH]; intros routes.
  - intros [= <-]. reflexivity.
  - cbn [buildEndpointRoutes_loop List.filter].
    destruct (NetURL.Parse (requests.URL e)) as [u|err]; cbn [is_ok]; [|apply IH].
    destruct (String.eqb (requests.Application e) EmptyString) eqn:Happ.
    + destruct (buildForwardURL forwardURL u) as [url|]; [|discriminate].
      rewrite buildEndpointRoutes_loop_acc.
      destruct (buildEndpointRoutes_loop data _ _ _ _ []) as [rest|]; [|discriminate].
      intros [= <-]. cbn [app map]. rewrite Happ.
      cbn [negb proxy.Connect proxy.ForwardHeaders proxy.EventTypes].
      f_equal. now apply IH.
    + destruct (buildForwardURL forwardConnectURL u) as [url|]; [|discriminate].
      rewrite buildEndpointRoutes_loop_acc.
      destruct (buildEndpointRoutes_loop data _ _ _ _ []) as [rest|]; [|discriminate].
      intros [= <-]. cbn [app map]. rewrite Happ.
      cbn [negb proxy.Connect proxy.ForwardHeaders proxy.EventTypes].
      f_equal. now apply IH.
Qed.

Lemma buildEndpointRoutes_classes_witness :
  map (fun r => (proxy.Connect r, proxy.ForwardHeaders r, proxy.EventTypes r))
      [ route "http://localhost:3000/a" ["X-Env: dev"] false;
        route "http://localhost:4000/b" ["X-Acct: c"] true ]
  = [ (false, ["X-Env: dev"], ["*"]); (true, ["X-Acct: c"], ["*"]) ].
Proof.
  apply (buildEndpointRoutes_classes (listing "http://not a url")
           "http://localhost:3000" "http://localhost:4000"
           ["X-Env: dev"] ["X-Acct: c"]).
  vm_compute. reflexivity.
Defined.

(** * Further properties of the command *)

(** X12. With [--use-configured-webhooks], a [--forward-connect-to] that
    starts with [/] is refused like a relative [--forward-to]: the relay is
    not started, and unless [--print-secret] was given the command returns
    an error. *)
Theorem connect_relative_rejected (w : World) (lc : listenCmd) :
  useConfiguredWebhooks lc = true ->
  GoStrings.HasPrefix (forwardConnectURL lc) "/" = true ->
  relayStarted (fst (runListenCmd w lc)) = None
  /\ (onlyPrintSecret lc = false ->
      exists err, snd (runListenCmd w lc) = Return (Some err)).
Proof.
  intros Hmode Hrel. unfold runListenCmd. rewrite Hmode, Hrel.
  set (b := negb (printJSON lc) && negb (onlyPrintSecret lc) && negb (skipUpdate lc)).
  destruct (GetDeviceName w) as [deviceName|err];
    [| split; [apply relayStarted_check | eauto]].
  destruct (GetAPIKey w (livemode lc)) as [key|err];
    [| split; [apply relayStarted_check | eauto]].
  destruct (onlyPrintSecret lc).
  { split; [|discriminate].
    destruct (GetSessionSecret w deviceName key (apiBaseURL lc)); simpl fst.
    - now rewrite relayStarted_app, relayStarted_check.
    - apply relayStarted_check. }
  destruct (forwardURL lc) as [|c rest].
  { simpl. split; [apply relayStarted_before | eauto]. }
  cbn [String.length Nat.ltb Nat.leb andb].
  destruct (GoStrings.HasPrefix (String c rest) "/");
    simpl; (split; [apply relayStarted_before | eauto]).
Qed.

Lemma connect_relative_rejected_witness :
  relayStarted
    (fst (runListenCmd (accountWith [endpoint "https://example.com/b" "ca_123"])
            (configuredWebhooks false (withForward defaultFlags "3000" "/connect"))))
  = None
  /\ exists err,
      snd (runListenCmd (accountWith [endpoint "https://example.com/b" "ca_123"])
             (configuredWebhooks false (withForward defaultFlags "3000" "/connect")))
      = Return (Some err).
Proof.
  destruct (connect_relative_rejected
              (accountWith [endpoint "https://example.com/b" "ca_123"])
              (configuredWebhooks false (withForward defaultFlags "3000" "/connect")))
    as [Hnone Herr]; [reflexivity | reflexivity |].
  split; [exact Hnone | apply Herr; reflexivity].
Defined.

(** X13. The relay is only ever started after everything before it went
    well: when it is started, [--print-secret] was not given, the device
    name and the API key were found, the configuration is the one assembled
    from the flags, and the command returns what the relay's [Run] returns.
    With [--use-configured-webhooks] moreover a forwarding URL was given,
    neither forwarding URL starts with [/], the account's listing is not
    empty, and the routes are the ones resolved from it; without it there
    are no routes. *)
Theorem relay_started_sound (w : World) (lc : listenCmd) (cfg : proxy.Config) :
  relayStarted (fst (runListenCmd w lc)) = Some cfg ->
  onlyPrintSecret lc = false
  /\ exists deviceName key routes,
      GetDeviceName w = Ok deviceName
      /\ GetAPIKey w (livemode lc) = Ok key
      /\ cfg = proxyConfig lc deviceName key routes
      /\ snd (runListenCmd w lc) = Return (Run w cfg)
      /\ if useConfiguredWebhooks lc
         then forwardURL lc <> EmptyString
              /\ GoStrings.HasPrefix (forwardURL lc) "/" = false
              /\ GoStrings.HasPrefix (forwardConnectURL lc) "/" = false
              /\ requests.Data (getEndpointsFromAPI w lc key) <> []
              /\ buildEndpointRoutes (getEndpointsFromAPI w lc key)
                   (parseURL (forwardURL lc)) (parseURL (forwardConnectURL lc))
                   (forwardHeaders lc) (forwardConnectHeaders lc) = Ok routes
         else routes = [].
Proof.
  unfold runListenCmd.
  set (b := negb (printJSON lc) && negb (onlyPrintSecret lc) && negb (skipUpdate lc)).
  destruct (GetDeviceName w) as [deviceName|err];
    [| simpl fst; rewrite relayStarted_check; discriminate].
  destruct (GetAPIKey w (livemode lc)) as [key|err];
    [| simpl fst; rewrite relayStarted_check; discriminate].
  destruct (onlyPrintSecret lc).
  { destruct (GetSessionSecret w deviceName key (apiBaseURL lc)); simpl fst;
      rewrite ?relayStarted_app, !relayStarted_check; discriminate. }
  destruct (useConfiguredWebhooks lc); cbn [andb].
  - destruct (forwardURL lc) as [|c rest] eqn:Hf.
    { simpl. rewrite relayStarted_before. discriminate. }
    cbn [String.length Nat.ltb Nat.leb].
    destruct (GoStrings.HasPrefix (String c rest) "/") eqn:Hrel.
    { simpl fst. rewrite relayStarted_before. discriminate. }
    destruct (GoStrings.HasPrefix (forwardConnectURL lc) "/") eqn:Hcrel.
    { simpl fst. rewrite relayStarted_before. discriminate. }
    destruct (requests.Data (getEndpointsFromAPI w lc key)) as [|e data] eqn:Hdata.
    { simpl. rewrite relayStarted_before. discriminate. }
    cbn [List.length Nat.eqb].
    destruct (buildEndpointRoutes _ _ _ _ _) as [routes|fatal] eqn:Hroutes.
    + simpl fst. rewrite relayStarted_start. intros [= <-].
      split; [reflexivity|]. exists deviceName, key, routes.
      repeat split; try reflexivity; try assumption;
        rewrite ?Hdata; intros Hne; discriminate Hne.
    + simpl fst. rewrite relayStarted_fatal. discriminate.
  - simpl fst. rewrite relayStarted_start. intros [= <-].
    split; [reflexivity|]. exists deviceName, key, [].
    repeat split; reflexivity.
Qed.

Lemma relay_started_sound_witness :
  onlyPrintSecret (withForward defaultFlags "localhost:3000/events" EmptyString) = false
  /\ exists deviceName key routes,
      GetDeviceName (accountWith []) = Ok deviceName
      /\ GetAPIKey (accountWith []) false = Ok key
      /\ proxyConfig (withForward defaultFlags "localhost:3000/events" EmptyString)
           "laptop" "sk_test_123" []
         = proxyConfig (withForward defaultFlags "localhost:3000/events" EmptyString)
             deviceName key routes
      /\ snd (runListenCmd (accountWith [])
                (withForward defaultFlags "localhost:3000/events" EmptyString))
         = Return None
      /\ routes = [].
Proof.
  apply (relay_started_sound (accountWith [])
           (withForward defaultFlags "localhost:3000/events" EmptyString)
           (proxyConfig (withForward defaultFlags "localhost:3000/events" EmptyString)
              "laptop" "sk_test_123" [])).
  vm_compute. reflexivity.
Defined.

(** X14. The account's endpoints are asked for only after the flags were
    found valid: without [--use-configured-webhooks], with [--print-secret],
    without a forwarding URL, or with a forwarding URL that starts with [/],
    what the command does and returns is the same whatever the account has
    behind the API. *)
Theorem listing_not_consulted (w : World) (lc : listenCmd) (defaultAPIBase : string)
        (list : string -> string -> string -> requests.WebhookEndpointList) :
  useConfiguredWebhooks lc = false
  \/ onlyPrintSecret lc = true
  \/ forwardURL lc = EmptyString
  \/ GoStrings.HasPrefix (forwardURL lc) "/" = true
  \/ GoStrings.HasPrefix (forwardConnectURL lc) "/" = true ->
  runListenCmd (withAccount w defaultAPIBase list) lc = runListenCmd w lc.
Proof.
  intros H. unfold runListenCmd.
  cbn [withAccount GetDeviceName GetAPIKey GetSessionSecret Run].
  destruct (GetDeviceName w) as [deviceName|err]; [|reflexivity].
  destruct (GetAPIKey w (livemode lc)) as [key|err]; [|reflexivity].
  destruct (onlyPrintSecret lc) eqn:Hps; [reflexivity|].
  destruct (useConfiguredWebhooks lc) eqn:Hmode; [|reflexivity].
  cbn [andb].
  destruct (forwardURL lc) as [|c rest] eqn:Hf; [reflexivity|].
  cbn [String.length Nat.ltb Nat.leb].
  destruct (GoStrings.HasPrefix (String c rest) "/") eqn:Hrel; [reflexivity|].
  destruct (GoStrings.HasPrefix (forwardConnectURL lc) "/") eqn:Hcrel; [reflexivity|].
  destruct H as [H | [H | [H | [H | H]]]]; discriminate.
Qed.

Lemma listing_not_consulted_witness :
  runListenCmd
    (withAccount (accountWith []) "http://localhost:12111"
       (fun _ _ _ => listing "https://example.com/c"))
    (withForward defaultFlags "3000" EmptyString)
  = runListenCmd (accountWith []) (withForward defaultFlags "3000" EmptyString).
Proof.
  apply (listing_not_consulted (accountWith [])
           (withForward defaultFlags "3000" EmptyString)).
  left. reflexivity.
Defined.

(** X15. With [--use-configured-webhooks], valid flags, a non-empty listing
    and two forwarding URLs whose completed forms [url.Parse] accepts, the
    relay is started with the routes of the listing (one per endpoint whose
    URL parses, in order), after the warnings, and the command returns what
    the relay's [Run] returns. *)
Theorem configured_webhooks_start
        (w : World) (lc : listenCmd) (deviceName key : string) (fd fc : NetURL.URL) :
  GetDeviceName w = Ok deviceName ->
  GetAPIKey w (livemode lc) = Ok key ->
  onlyPrintSecret lc = false ->
  useConfiguredWebhooks lc = true ->
  forwardURL lc <> EmptyString ->
  GoStrings.HasPrefix (forwardURL lc) "/" = false ->
  GoStrings.HasPrefix (forwardConnectURL lc) "/" = false ->
  requests.Data (getEndpointsFromAPI w lc key) <> [] ->
  NetURL.Parse (parseURL (forwardURL lc)) = Ok fd ->
  NetURL.Parse (parseURL (forwardConnectURL lc)) = Ok fc ->
  relayStarted (fst (runListenCmd w lc))
  = Some (proxyConfig lc deviceName key
            (Resolve_spec fd fc (forwardHeaders lc) (forwardConnectHeaders lc)
               (requests.Data (getEndpointsFromAPI w lc key))))
  /\ snd (runListenCmd w lc)
     = Return (Run w (proxyConfig lc deviceName key
                        (Resolve_spec fd fc (forwardHeaders lc) (forwardConnectHeaders lc)
                           (requests.Data (getEndpointsFromAPI w lc key))))).
Proof.
  intros Hd Hk Hps Hmode Hf Hrel Hcrel Hdata Hfd Hfc.
  unfold runListenCmd. rewrite Hd, Hk, Hps, Hmode, Hrel, Hcrel.
  rewrite (buildEndpointRoutes_spec _ _ _ _ _ _ Hfd Hfc).
  destruct (forwardURL lc) as [|c rest]; [congruence|].
  cbn [String.length Nat.ltb Nat.leb andb].
  destruct (requests.Data (getEndpointsFromAPI w lc key)) as [|e data]; [congruence|].
  cbn [List.length Nat.eqb fst snd].
  split; [|reflexivity].
  apply (relayStarted_start
           (negb (printJSON lc) && negb false && negb (skipUpdate lc))).
Qed.

Lemma configured_webhooks_start_witness :
  relayStarted
    (fst (runListenCmd (accountWith (requests.Data (listing "http://not a url")))
            (configuredWebhooks false (withForward defaultFlags "3000" "4000"))))
  = Some (proxyConfig (configuredWebhooks false (withForward defaultFlags "3000" "4000"))
            "laptop" "sk_test_123"
            [ route "http://localhost:3000/a" [] false;
              route "http://localhost:4000/b" [] true ])
  /\ snd (runListenCmd (accountWith (requests.Data (listing "http://not a url")))
            (configuredWebhooks false (withForward defaultFlags "3000" "4000")))
     = Return None.
Proof.
  apply (configured_webhooks_start
           (accountWith (requests.Data (listing "http://not a url")))
           (configuredWebhooks false (withForward defaultFlags "3000" "4000"))
           "laptop" "sk_test_123"
           {| NetURL.Scheme := "http"; NetURL.Opaque := EmptyString;
              NetURL.User := None; NetURL.Host := "localhost:3000";
              NetURL.Path := EmptyString; NetURL.ForceQuery := false;
              NetURL.RawQuery := EmptyString; NetURL.Fragment := EmptyString |}
           {| NetURL.Scheme := "http"; NetURL.Opaque := EmptyString;
              NetURL.User := None; NetURL.Host := "localhost:4000";
              NetURL.Path := EmptyString; NetURL.ForceQuery := false;
              NetURL.RawQuery := EmptyString; NetURL.Fragment := EmptyString |});
    try reflexivity; try discriminate; vm_compute; reflexivity.
Defined.

(** X16. The process exits in [log.Fatalf] only with
    [--use-configured-webhooks], only before the relay is started, and only
    because [url.Parse] rejects the completed form of one of the two
    forwarding URLs. *)
Theorem fatal_exit_unusable_target (w : World) (lc : listenCmd) :
  snd (runListenCmd w lc) = Exit ->
  useConfiguredWebhooks lc = true
  /\ relayStarted (fst (runListenCmd w lc)) = None
  /\ (is_ok (NetURL.Parse (parseURL (forwardURL lc))) = false
      \/ is_ok (NetURL.Parse (parseURL (forwardConnectURL lc))) = false).
Proof.
  unfold runListenCmd.
  set (b := negb (printJSON lc) && negb (onlyPrintSecret lc) && negb (skipUpdate lc)).
  destruct (GetDeviceName w) as [deviceName|err]; [|discriminate].
  destruct (GetAPIKey w (livemode lc)) as [key|err]; [|discriminate].
  destruct (onlyPrintSecret lc).
  { destruct (GetSessionSecret w deviceName key (apiBaseURL lc)); discriminate. }
  destruct (useConfiguredWebhooks lc); cbn [andb]; [|discriminate].
  destruct (0 <? String.length (forwardURL lc))%nat.
  - destruct (GoStrings.HasPrefix (forwardURL lc) "/"); [discriminate|].
    destruct (GoStrings.HasPrefix (forwardConnectURL lc) "/"); [discriminate|].
    destruct (List.length _ =? 0)%nat; [discriminate|].
    destruct (buildEndpointRoutes _ _ _ _ _) as [routes|fatal] eqn:Hroutes;
      [discriminate|].
    intros _. split; [reflexivity|]. simpl fst. split; [apply relayStarted_fatal|].
    destruct (NetURL.Parse (parseURL (forwardURL lc))) as [fd|] eqn:Hfd; [|now left].
    destruct (NetURL.Parse (parseURL (forwardConnectURL lc))) as [fc|] eqn:Hfc;
      [|now right].
    rewrite (buildEndpointRoutes_spec _ _ _ _ _ _ Hfd Hfc) in Hroutes. discriminate.
  - destruct (String.length (forwardURL lc) =? 0)%nat; discriminate.
Qed.

Lemma fatal_exit_unusable_target_witness :
  useConfiguredWebhooks (configuredWebhooks false (withForward defaultFlags "my host" EmptyString))
  = true
  /\ relayStarted
       (fst (runListenCmd (accountWith [endpoint "https://example.com/a" EmptyString])
               (configuredWebhooks false (withForward defaultFlags "my host" EmptyString))))
     = None
  /\ (is_ok (NetURL.Parse (parseURL "my host")) = false
      \/ is_ok (NetURL.Parse (parseURL EmptyString)) = false).
Proof.
  apply (fatal_exit_unusable_target
           (accountWith [endpoint "https://example.com/a" EmptyString])
           (configuredWebhooks false (withForward defaultFlags "my host" EmptyString))).
  vm_compute. reflexivity.
Defined.

(** X17. [--print-secret] makes the command ignore every other flag but
    [--live] and [--api-base]: two invocations with it that agree on those
    two do and return the same, and neither starts the relay, prints a
    warning or looks for a newer version. *)
Theorem print_secret_ignores_other_flags (w : World) (lc lc' : listenCmd) :
  onlyPrintSecret lc = true ->
  onlyPrintSecret lc' = true ->
  livemode lc = livemode lc' ->
  apiBaseURL lc = apiBaseURL lc' ->
  runListenCmd w lc = runListenCmd w lc'
  /\ Forall (fun effect => exists line, effect = Printf line) (fst (runListenCmd w lc))
  /\ List.length (fst (runListenCmd w lc)) <= 1.
Proof.
  intros Hps Hps' Hlive Hbase. unfold runListenCmd.
  rewrite Hps, Hps', <- Hlive, <- Hbase, !andb_false_r. cbn [negb andb].
  destruct (GetDeviceName w) as [deviceName|err];
    [| split; [reflexivity | split; [constructor | simpl; lia]]].
  destruct (GetAPIKey w (livemode lc)) as [key|err];
    [| split; [reflexivity | split; [constructor | simpl; lia]]].
  destruct (GetSessionSecret w deviceName key (apiBaseURL lc)) as [secret|err];
    (split; [reflexivity | split; [|simpl; lia]]).
  - repeat constructor. eauto.
  - constructor.
Qed.

Lemma print_secret_ignores_other_flags_witness :
  runListenCmd (accountWith [])
    (configuredWebhooks true (withForward defaultFlags "/hooks" EmptyString))
  = runListenCmd (accountWith [])
      (configuredWebhooks true (withEvents defaultFlags ["no.such.event"])).
Proof.
  apply (print_secret_ignores_other_flags (accountWith [])
           (configuredWebhooks true (withForward defaultFlags "/hooks" EmptyString))
           (configuredWebhooks true (withEvents defaultFlags ["no.such.event"])));
    reflexivity.
Defined.

(** X18. Every known event type but the wildcard has a dot in it, so a
    requested token without a dot, other than [*], always draws a
    warning. *)
Theorem token_without_dot_warned (event : string) (events : list string) :
  GoStrings.Index event "." = None ->
  event <> "*" ->
  eventWarnings (event :: events) = Printf (eventWarning event) :: eventWarnings events.
Proof.
  intros Hdot Hstar. cbn [eventWarnings].
  destruct (validEvents !! event) as [v|] eqn:Hv; [exfalso | reflexivity].
  unfold validEvents in Hv. apply elem_of_list_to_map_2 in Hv.
  apply list_elem_of_In in Hv.
  revert Hv.
  match goal with
  | |- In _ ?l -> _ =>
      assert (Hall : forallb (fun kv => String.eqb (fst kv) "*"
                                        || GoStrings.Contains (fst kv) ".") l = true)
        by (vm_compute; reflexivity)
  end.
  intros Hin. rewrite forallb_forall in Hall. specialize (Hall _ Hin).
  cbn [fst] in Hall. apply orb_true_iff in Hall as [Heq | Hc].
  - apply String.eqb_eq in Heq. contradiction.
  - unfold GoStrings.Contains in Hc. rewrite Hdot in Hc. discriminate.
Qed.

Lemma token_without_dot_warned_witness :
  eventWarnings ["charge"; "charge.succeeded"] = [Printf (eventWarning "charge")].
Proof.
  apply (token_without_dot_warned "charge" ["charge.succeeded"]);
    [reflexivity | discriminate].
Defined.

(** X19. The flags of the command: no name and no shorthand is defined
    twice, the normalization of names leaves every defined name as it is,
    sends the old name [load-from-webhooks-api], which is not itself
    defined, to the defined [use-configured-webhooks], changes no other
    name, and is idempotent. *)
Theorem normalizeFlagName_alias (name : string) :
  normalizeFlagName (normalizeFlagName name) = normalizeFlagName name
  /\ (normalizeFlagName name = name \/ name = "load-from-webhooks-api")
  /\ Forall (fun flag => normalizeFlagName (fst flag) = fst flag) listenFlags
  /\ In (normalizeFlagName "load-from-webhooks-api") (map fst listenFlags)
  /\ ~ In "load-from-webhooks-api" (map fst listenFlags)
  /\ NoDup (map fst listenFlags)
  /\ NoDup (List.filter (fun short => negb (String.eqb short EmptyString))
                        (map snd listenFlags)).
Proof.
  split; [|split; [|split; [|split; [|split; [|split]]]]].
  - unfold normalizeFlagName.
    destruct (String.eqb name "load-from-webhooks-api") eqn:E;
      [reflexivity | now rewrite E].
  - unfold normalizeFlagName.
    destruct (String.eqb name "load-from-webhooks-api") eqn:E; [right | now left].
    now apply String.eqb_eq.
  - repeat constructor.
  - vm_compute. auto 20.
  - vm_compute. intuition discriminate.
  - apply (@bool_decide_unpack _ (NoDup_dec _)). vm_compute. exact I.
  - apply (@bool_decide_unpack _ (NoDup_dec _)). vm_compute. exact I.
Qed.
